(** * nanoparticle_analyzer.py: a shallow embedding and its properties

    The script reads a table of articles, derives a citation key per
    article, detects which nanoparticle materials each article mentions,
    groups the articles by the detected combination, and renders a LaTeX
    table body and a BibTeX file.

    Python strings are sequences of Unicode code points and are modelled as
    [list N].  What the script does on ASCII code points is written out;
    what the interpreter's Unicode database decides for the other code
    points (NFKD decomposition, alphanumeric and whitespace classes, case
    mappings) is taken from a record [Interpreter] that every definition
    receives.  The interpreter's built-in [hash] is salted per process and
    is passed to the key generator as a function. *)

From Stdlib Require Import String Ascii ZArith NArith DecimalString DecimalPos.
From stdpp Require Import gmap list sorting.

Local Open Scope Z_scope.
Local Open Scope nat_scope.
Local Open Scope list_scope.

(** ** Strings *)

(** A Python [str]: the list of its code points. *)
Abbreviation str := (list N).

(** A literal of the source, given as its ASCII characters. *)
Definition lit (s : string) : str := N_of_ascii <$> list_ascii_of_string s.

Definition is_ascii (c : N) : bool := (c <? 128)%N.

Definition nl : str := [10%N].

(** [str(n)] for an integer. *)
Definition str_of_Z (z : Z) : str := lit (NilZero.string_of_int (Z.to_int z)).
Definition str_of_nat (n : nat) : str := str_of_Z (Z.of_nat n).

(** Lexicographic order on code points: [<] on [str]. *)
Fixpoint str_ltb (a b : str) : bool :=
  match a, b with
  | [], [] => false
  | [], _ :: _ => true
  | _ :: _, [] => false
  | x :: a', y :: b' => (x <? y)%N || ((x =? y)%N && str_ltb a' b')
  end.

(** ** sorted *)

(** Python's [sorted] is stable.  [before k1 k2] says that key [k1] has to
    come strictly before key [k2]: [k1 < k2] as it stands, [k2 < k1] under
    [reverse=True].  An element is put in front of the first later element
    that does not have to come before it, so equal keys keep their order. *)
Section Sorted.
Context {A K : Type} (key : A -> K) (before : K -> K -> bool).

Fixpoint insert_sorted (x : A) (l : list A) : list A :=
  match l with
  | [] => [x]
  | y :: l' => if before (key y) (key x) then y :: insert_sorted x l' else x :: l
  end.

Definition py_sorted (l : list A) : list A := foldr insert_sorted [] l.

(** [x] may stand in front of [y]: [y] does not have to come before [x]. *)
Definition in_order (x y : A) : Prop := before (key y) (key x) = false.

End Sorted.

(** [<] on the tuples [(len(combo), freq)] *)
Definition pair_ltb (a b : nat * nat) : bool :=
  (a.1 <? b.1) || ((a.1 =? b.1) && (a.2 <? b.2)).

(** [sep.join(l)] for strings. *)
Fixpoint join (sep : str) (l : list str) : str :=
  match l with
  | [] => []
  | [s] => s
  | s :: l' => s ++ sep ++ join sep l'
  end.

(** A Python [set] of strings, held as the list of its elements in the
    order they were added. *)
Definition set_add (x : str) (s : list str) : list str :=
  if bool_decide (x ∈ s) then s else s ++ [x].

(** ** The interpreter *)

(** The facts of the interpreter that the script relies on and that are not
    part of it: the Unicode database and the limit on integer strings. *)
Record Interpreter := {
  (** [unicodedata.normalize('NFKD', s)] *)
  normalize_NFKD : str -> str;
  (** [Py_UNICODE_ISALNUM] beyond ASCII: [str.isalnum] and the regex class
      [\w] both rest on it *)
  uni_isalnum : N -> bool;
  (** [Py_UNICODE_ISSPACE] beyond ASCII: the separators of [str.split()] *)
  uni_isspace : N -> bool;
  (** [str.lower] of a string that is not pure ASCII *)
  uni_lower : str -> str;
  (** [int(s)] for a string that is not pure ASCII ([None]: ValueError) *)
  uni_int : str -> option Z;
  (** whether pattern character [p] matches text character [c] under
      [re.IGNORECASE] when one of them is not ASCII *)
  uni_ignorecase : N -> N -> bool;
  (** [sys.get_int_max_str_digits()]; 0 means no limit *)
  int_max_str_digits : nat;
}.

(** CPython with its tables cut down to ASCII: code points from 128 on are
    left as they are and belong to no class, and normalisation changes
    nothing, as is the case on ASCII text.  This instance runs the
    definitions below on ASCII inputs, where the other tables are never
    consulted. *)
Definition cpython_ascii : Interpreter := {|
  normalize_NFKD := fun s => s;
  uni_isalnum := fun _ => false;
  uni_isspace := fun _ => false;
  uni_lower := fun s => s;
  uni_int := fun _ => None;
  uni_ignorecase := fun p c => (p =? c)%N;
  int_max_str_digits := 4300;
|}.

(** ** Values and exceptions *)

(** What a cell of the table, or the result of [row.get], can be.  A finite
    float is kept as the two things the script observes of it: its
    truncation [int(x)] and its printed form [str(x)]. *)
Inductive value :=
| VNone                               (* [row.get] of an absent column *)
| VNaN                                (* an empty cell *)
| VInt (z : Z)
| VFloat (trunc : Z) (repr : str)
| VInf (negative : bool)
| VStr (s : str).

Inductive exn :=
| IndexError | AttributeError | ValueError | OverflowError | TypeError | KeyError.

#[global] Instance exn_eq_dec : EqDecision exn.
Proof. solve_decision. Defined.

Inductive result (A : Type) :=
| Ok (a : A)
| Raise (e : exn).
Arguments Ok {A} a.
Arguments Raise {A} e.

#[global] Instance result_ret : MRet result := fun A a => Ok a.
#[global] Instance result_fmap : FMap result := fun A B f r =>
  match r with
  | Ok a => Ok (f a)
  | Raise e => Raise e
  end.
#[global] Instance result_bind : MBind result := fun A B f r =>
  match r with
  | Ok a => f a
  | Raise e => Raise e
  end.

Definition is_ok {A} (r : result A) : bool :=
  match r with Ok _ => true | Raise _ => false end.

(** [pd.notna] *)
Definition notna (v : value) : bool :=
  match v with
  | VNone | VNaN => false
  | _ => true
  end.

(** [str(v)] *)
Definition py_str (v : value) : str :=
  match v with
  | VNone => lit "None"
  | VNaN => lit "nan"
  | VInt z => str_of_Z z
  | VFloat _ repr => repr
  | VInf negative => if negative then lit "-inf" else lit "inf"
  | VStr s => s
  end.

(** ** Character classes on ASCII, the tables beyond *)

Section Analyzer.
Context (Py : Interpreter).

Definition ascii_isalnum (c : N) : bool :=
  ((48 <=? c) && (c <=? 57) || (65 <=? c) && (c <=? 90) || (97 <=? c) && (c <=? 122))%N.

Definition ascii_isspace (c : N) : bool :=
  ((9 <=? c) && (c <=? 13) || (28 <=? c) && (c <=? 32))%N.

Definition ascii_lower (c : N) : N :=
  if ((65 <=? c) && (c <=? 90))%N then (c + 32)%N else c.

Definition isalnum (c : N) : bool :=
  if is_ascii c then ascii_isalnum c else uni_isalnum Py c.

Definition isspace (c : N) : bool :=
  if is_ascii c then ascii_isspace c else uni_isspace Py c.

(** [s.lower()] *)
Definition lower (s : str) : str :=
  if forallb is_ascii s then ascii_lower <$> s else uni_lower Py s.

(** The regex class [\w]. *)
Definition is_word (c : N) : bool := isalnum c || (c =? 95)%N.

(** ** sanitize_text *)

(** [s.encode('ascii', 'ignore')]: the bytes of the ASCII code points. *)
Definition encode_ascii_ignore (s : str) : list N := filter (fun c => is_ascii c = true) s.

(** [b.decode('utf-8')] of bytes below 128: one code point per byte. *)
Definition decode_utf8 (b : list N) : str := b.

(** [s.replace(c, r)] for a single character [c]. *)
Definition replace (c : N) (r : str) (s : str) : str :=
  x ← s; if (x =? c)%N then r else [x].

(** The dict of line 72, in insertion order. *)
Definition replacements : list (N * str) :=
  [ (38%N, lit "\&"); (37%N, lit "\%"); (36%N, lit "\$"); (35%N, lit "\#");
    (95%N, lit "\_"); (123%N, lit "\{"); (125%N, lit "\}") ].

Definition sanitize_text (text : value) : str :=
  match text with
  | VStr text =>
      let text := decode_utf8 (encode_ascii_ignore (normalize_NFKD Py text)) in
      foldl (fun text '(char, escaped_char) => replace char escaped_char text)
            text replacements
  | _ => []
  end.

(** ** Built-ins used by the key generator *)

(** [s.split(',')]: the pieces between the separators, at least one. *)
Fixpoint split_on (sep : N) (piece : str) (s : str) : list str :=
  match s with
  | [] => [piece]
  | c :: s' => if (c =? sep)%N then piece :: split_on sep [] s'
               else split_on sep (piece ++ [c]) s'
  end.

(** [s.split()]: the maximal runs of characters that are not whitespace. *)
Fixpoint split_ws (word : str) (s : str) : list str :=
  match s with
  | [] => match word with [] => [] | _ => [word] end
  | c :: s' =>
      if isspace c
      then match word with [] => split_ws [] s' | _ => word :: split_ws [] s' end
      else split_ws (word ++ [c]) s'
  end.

(** [l[0]] and [l[-1]] *)
Definition item_first {A} (l : list A) : result A :=
  match l with
  | [] => Raise IndexError
  | x :: _ => Ok x
  end.

Definition item_last {A} (l : list A) : result A :=
  match last l with
  | None => Raise IndexError
  | Some x => Ok x
  end.

(** [int(s)] for an ASCII string: C whitespace around, an optional sign,
    decimal digits with single underscores between them, and at most
    [int_max_str_digits] digits when that limit is set. *)
Definition c_isspace (c : N) : bool := ((9 <=? c) && (c <=? 13) || (c =? 32))%N.
Definition is_digit (c : N) : bool := ((48 <=? c) && (c <=? 57))%N.

Fixpoint strip_left (s : str) : str :=
  match s with
  | c :: s' => if c_isspace c then strip_left s' else s
  | [] => []
  end.

Definition strip (s : str) : str := reverse (strip_left (reverse (strip_left s))).

Fixpoint digits_value (acc : Z) (after_digit : bool) (s : str) : option Z :=
  match s with
  | [] => if after_digit then Some acc else None
  | c :: s' =>
      if is_digit c then digits_value (10 * acc + (Z.of_N c - 48))%Z true s'
      else if (c =? 95)%N && after_digit then digits_value acc false s'
      else None
  end.

Definition within_digit_limit (s : str) : bool :=
  match int_max_str_digits Py with
  | 0 => true
  | limit => length (filter (fun c => is_digit c = true) s) <=? limit
  end.

Definition ascii_int (s : str) : option Z :=
  let body := strip s in
  let '(negative, digits) :=
    match body with
    | 45%N :: d => (true, d)
    | 43%N :: d => (false, d)
    | d => (false, d)
    end in
  if within_digit_limit digits
  then z ← digits_value 0 false digits; Some (if negative then - z else z)%Z
  else None.

Definition int_of_str (s : str) : option Z :=
  if forallb is_ascii s then ascii_int s else uni_int Py s.

(** [int(v)] *)
Definition py_int (v : value) : result Z :=
  match v with
  | VNone => Raise TypeError
  | VNaN => Raise ValueError
  | VInt z => Ok z
  | VFloat trunc _ => Ok trunc
  | VInf _ => Raise OverflowError
  | VStr s => match int_of_str s with Some z => Ok z | None => Raise ValueError end
  end.

(** ** generate_bib_key *)

(** Lines 84 and 85: the last name of the first author. *)
Definition clean_author_of (s_authors : str) : result str :=
  first_author ← item_first (split_on 44 [] s_authors);
  last_name ← item_last (split_ws [] first_author);
  let first_author_lastname := lower last_name in
  Ok (filter (fun c => isalnum c = true) first_author_lastname).

(** Lines 88 and 89: the first word of the title. *)
Definition clean_title_of (s_title : str) : result str :=
  first_word ← item_first (split_ws [] s_title);
  let first_word_title := lower first_word in
  Ok (filter (fun c => isalnum c = true) first_word_title).

(** Line 91 *)
Definition year_str_of (year : value) : result str :=
  if notna year then str_of_Z <$> py_int year else Ok (lit "nd").

(** The body of the [try]: the key of the normal pattern. *)
Definition normal_key (authors year title : value) : result str :=
  let s_authors := sanitize_text (VStr (py_str authors)) in
  let s_title := sanitize_text (VStr (py_str title)) in
  clean_author ← clean_author_of s_authors;
  clean_title ← clean_title_of s_title;
  year_str ← year_str_of year;
  Ok (clean_author ++ year_str ++ clean_title).

(** The exceptions of the [except] clause. *)
Definition caught (e : exn) : bool :=
  match e with
  | IndexError | AttributeError | ValueError => true
  | _ => false
  end.

(** The key of the [except] branch. *)
Definition fallback_key (hash : value -> Z) (title : value) : str :=
  lit "ref_" ++ str_of_Z (Z.abs (hash title)).

Definition generate_bib_key (hash : value -> Z) (authors year title : value)
  : result str :=
  match normal_key authors year title with
  | Ok key => Ok key
  | Raise e => if caught e then Ok (fallback_key hash title) else Raise e
  end.

(** ** The table of articles *)

(** The frame that [pd.read_csv] returns: the column labels and the rows,
    each row holding one cell per column. *)
Record DataFrame := {
  columns : list string;
  rows : list (list value);
}.

Fixpoint column_index (name : string) (cols : list string) : option nat :=
  match cols with
  | [] => None
  | c :: cols' => if String.eqb c name then Some 0 else S <$> column_index name cols'
  end.

(** A row shorter than the header is padded with empty cells. *)
Definition cell (row : list value) (i : nat) : value := default VNaN (row !! i).

(** [row.get(name, dflt)] *)
Definition row_get (df : DataFrame) (row : list value) (name : string) (dflt : value)
  : value :=
  match column_index name (columns df) with
  | Some i => cell row i
  | None => dflt
  end.

(** [row[name]] *)
Definition row_item (df : DataFrame) (row : list value) (name : string)
  : result value :=
  match column_index name (columns df) with
  | Some i => Ok (cell row i)
  | None => Raise KeyError
  end.

(** ** The configuration *)

Definition NANOPARTICLE_MAP : list (str * list str) :=
  [ (lit "Alumina", [lit "Al2O3"; lit "aluminum oxide"; lit "alumina"]);
    (lit "Titania", [lit "TiO2"; lit "titanium dioxide"; lit "titania"]);
    (lit "Silica", [lit "SiO2"; lit "silicon dioxide"; lit "silica"]);
    (lit "Copper Oxide", [lit "CuO"; lit "cupric oxide"; lit "copper oxide"]);
    (lit "Zinc Oxide", [lit "ZnO"; lit "zinc oxide"]);
    (lit "Magnetite", [lit "Fe3O4"; lit "magnetite"; lit "iron oxide"]);
    (lit "Zirconia", [lit "ZrO2"; lit "zirconium dioxide"; lit "zirconia"]);
    (lit "Graphene", [lit "graphene"; lit "graphene nanoplatelets"; lit "GNP";
                      lit "graphene oxide"; lit "GO"]);
    (lit "Carbon Nanotube", [lit "carbon nanotube"; lit "CNT"; lit "SWCNT"; lit "MWCNT"]);
    (lit "Diamond", [lit "diamond"; lit "nano-diamond"]);
    (lit "Silver", [lit "silver"; lit "Ag"]);
    (lit "Copper", [lit "copper"; lit "Cu"]);
    (lit "Gold", [lit "gold"; lit "Au"]);
    (lit "MXene", [lit "mxene"; lit "ti3c2tx"]);
    (lit "Molybdenum Disulfide", [lit "MoS2"; lit "molybdenum disulfide"]) ].

Definition LATEX_SYMBOL_MAP : list (str * str) :=
  [ (lit "Alumina", lit "\ce{Al2O3}"); (lit "Titania", lit "\ce{TiO2}");
    (lit "Silica", lit "\ce{SiO2}"); (lit "Copper Oxide", lit "\ce{CuO}");
    (lit "Zinc Oxide", lit "\ce{ZnO}"); (lit "Magnetite", lit "\ce{Fe3O4}");
    (lit "Zirconia", lit "\ce{ZrO2}"); (lit "Graphene", lit "Graphene");
    (lit "Carbon Nanotube", lit "CNT"); (lit "Diamond", lit "Diamond");
    (lit "Silver", lit "\ce{Ag}"); (lit "Copper", lit "\ce{Cu}");
    (lit "Gold", lit "\ce{Au}"); (lit "MXene", lit "MXene");
    (lit "Molybdenum Disulfide", lit "\ce{MoS2}") ].

(** [d.get(name, dflt)] on a dict with string keys. *)
Fixpoint dict_get {V} (d : list (str * V)) (name : str) (dflt : V) : V :=
  match d with
  | [] => dflt
  | (k, v) :: d' => if bool_decide (k = name) then v else dict_get d' name dflt
  end.

(** ** analyze_literature: the citation keys (lines 113 to 122) *)

Definition row_base_key (hash : value -> Z) (df : DataFrame) (row : list value)
  : result str :=
  generate_bib_key hash (row_get df row "Authors" VNone)
                        (row_get df row "Year" VNone)
                        (row_get df row "Title" VNone).

Fixpoint key_loop (hash : value -> Z) (df : DataFrame)
    (seen_keys_count : gmap str nat) (rows : list (list value)) : result (list str) :=
  match rows with
  | [] => Ok []
  | row :: rest =>
      base_key ← row_base_key hash df row;
      let count := default 0 (seen_keys_count !! base_key) in
      let seen_keys_count := <[base_key := count + 1]> seen_keys_count in
      let unique_key :=
        if count =? 0 then base_key else base_key ++ str_of_nat (count + 1) in
      bib_keys ← key_loop hash df seen_keys_count rest;
      Ok (unique_key :: bib_keys)
  end.

Definition bib_keys (hash : value -> Z) (df : DataFrame) : result (list str) :=
  key_loop hash df ∅ (rows df).

(** ** The combined text (lines 125 and 126) *)

Definition text_columns : list string :=
  ["Title"; "Abstract"; "Keywords"; "Index Keywords"]%string.

(** [.fillna('')] *)
Definition fillna (v : value) : value :=
  match v with
  | VNaN | VNone => VStr []
  | _ => v
  end.

(** [' '.join] takes strings only. *)
Definition as_str (v : value) : result str :=
  match v with
  | VStr s => Ok s
  | _ => Raise TypeError
  end.

(** [df[text_columns]]: every label has to be a column. *)
Definition select (df : DataFrame) (names : list string) : result (list nat) :=
  mapM (fun name => match column_index name (columns df) with
                    | Some i => Ok i
                    | None => Raise KeyError
                    end) names.

Definition combined_text (df : DataFrame) : result (list str) :=
  idx ← select df text_columns;
  mapM (fun row => join (lit " ") <$> mapM (fun i => as_str (fillna (cell row i))) idx)
       (rows df).

(** ** The search for a variation (line 136) *)

(** A literal pattern character against a text character under
    [re.IGNORECASE]. *)
Definition ignorecase_eq (p c : N) : bool :=
  if is_ascii p && is_ascii c then (ascii_lower p =? ascii_lower c)%N
  else uni_ignorecase Py p c.

(** [\b] at position [i]: exactly one of the characters before and at [i]
    is a word character; a position outside the text counts as none. *)
Definition at_boundary (text : str) (i : nat) : bool :=
  let that := match i with
              | 0 => false
              | S j => from_option is_word false (text !! j)
              end in
  let this := from_option is_word false (text !! i) in
  xorb this that.

(** The escaped variation matches the text from its first character on. *)
Fixpoint match_literal (v text : str) : bool :=
  match v, text with
  | [], _ => true
  | _ :: _, [] => false
  | p :: v', c :: text' => ignorecase_eq p c && match_literal v' text'
  end.

Definition match_at (v text : str) (i : nat) : bool :=
  at_boundary text i && match_literal v (drop i text)
  && at_boundary text (i + length v).

(** [re.search(r'\b' + re.escape(v) + r'\b', text, re.IGNORECASE)] finds
    a match. *)
Definition search (v text : str) : bool :=
  existsb (match_at v text) (seq 0 (S (length text))).

(** The set built by lines 133 to 137. *)
Definition nanoparticles_found (text : str) : list str :=
  foldl (fun found '(name, variations) =>
           if existsb (fun v => search v text) variations
           then set_add name found else found)
        [] NANOPARTICLE_MAP.

(** ** The groups (lines 139 to 149) *)

(** [tuple(sorted(list(nanoparticles_found)))] *)
Definition combo_key (found : list str) : list str := py_sorted id str_ltb found.

(** [combination_keys[combo_key].append(bib_key)] on the dict, whose items
    stay in the order their keys were first inserted. *)
Fixpoint dict_append (combo_key : list str) (bib_key : str)
    (d : list (list str * list str)) : list (list str * list str) :=
  match d with
  | [] => [(combo_key, [bib_key])]
  | (k, keys) :: d' =>
      if bool_decide (k = combo_key) then (k, keys ++ [bib_key]) :: d'
      else (k, keys) :: dict_append combo_key bib_key d'
  end.

Record counts := {
  mono : nat;
  binary : nat;
  ternary : nat;
  other : nat;
}.

Definition count_up (num_found : nat) (c : counts) : counts :=
  match num_found with
  | 1 => {| mono := mono c + 1; binary := binary c; ternary := ternary c; other := other c |}
  | 2 => {| mono := mono c; binary := binary c + 1; ternary := ternary c; other := other c |}
  | 3 => {| mono := mono c; binary := binary c; ternary := ternary c + 1; other := other c |}
  | _ => {| mono := mono c; binary := binary c; ternary := ternary c; other := other c + 1 |}
  end.

(** One article: its detected set and its citation key. *)
Definition group_step (st : list (list str * list str) * counts)
    (found : list str) (bib_key : str) : list (list str * list str) * counts :=
  let num_found := length found in
  if 0 <? num_found
  then (dict_append (combo_key found) bib_key st.1, count_up num_found st.2)
  else st.

(** The loop over the articles, each given by its detected set and key. *)
Definition group_loop (articles : list (list str * str))
  : list (list str * list str) * counts :=
  foldl (fun st '(found, bib_key) => group_step st found bib_key)
        ([], {| mono := 0; binary := 0; ternary := 0; other := 0 |}) articles.

(** ** The table (lines 152 to 167) *)

Record item := {
  combo : list str;
  freq : nat;
  keys : list str;
}.

Definition sort_key (x : item) : nat * nat := (length (combo x), freq x).

(** The dict item [(combo, keys)] as the record of line 153. *)
Definition item_of (g : list str * list str) : item :=
  {| combo := g.1; freq := length g.2; keys := g.2 |}.

(** [sorted(..., key=lambda x: (len(x['combo']), x['freq']), reverse=True)] *)
Definition table_data (combination_keys : list (list str * list str)) : list item :=
  py_sorted sort_key (fun k1 k2 => pair_ltb k2 k1) (item_of <$> combination_keys).

Definition latex_row (x : item) : str :=
  let latex_combo_str :=
    join (lit " + ") ((fun name => dict_get LATEX_SYMBOL_MAP name name) <$> combo x) in
  let cite_str := lit "\cite{" ++ join (lit ",") (keys x) ++ lit "}" in
  lit "  " ++ latex_combo_str ++ lit " & " ++ str_of_nat (freq x) ++ lit " & "
    ++ cite_str ++ lit " \\ \hline".

Definition all_ordered_cite_keys (table : list item) : list str :=
  x ← table; keys x.

(** [list(dict.fromkeys(l))]: the first occurrence of each key, in order. *)
Definition unique_ordered (l : list str) : list str :=
  foldl (fun seen key => set_add key seen) [] l.

(** ** The BibTeX entries (lines 170 to 189) *)

(** [key_to_article_map.loc[key]]: the rows that the key labels. *)
Definition loc (df : DataFrame) (bib_keys : list str) (key : str)
  : list (list value) :=
  snd <$> filter (fun kr => kr.1 = key) (zip bib_keys (rows df)).

(** The body of the [try] of line 173.  When the key labels several rows,
    [article] is a frame: [article['Page start']] is then a column, and
    taking the truth value of [pd.notna] of a column raises ValueError. *)
Definition bibtex_entry (df : DataFrame) (bib_keys : list str) (key : str)
  : result str :=
  match loc df bib_keys key with
  | [] => Raise KeyError
  | [article] =>
      page_start ← row_item df article "Page start";
      pages ←
        (if notna page_start
         then page_end ← row_item df article "Page end";
              if notna page_end
              then first ← py_int page_start;
                   last ← py_int page_end;
                   Ok (str_of_Z first ++ lit "--" ++ str_of_Z last)
              else Ok []
         else Ok []);
      year ← py_int (row_get df article "Year" (VInt 0));
      Ok (lit "@article{" ++ key ++ lit "," ++ nl
          ++ lit "  title={" ++ sanitize_text (row_get df article "Title" (VStr []))
          ++ lit "}," ++ nl
          ++ lit "  author={"
          ++ replace 44 (lit " and") (sanitize_text (row_get df article "Authors" (VStr [])))
          ++ lit "}," ++ nl
          ++ lit "  journal={"
          ++ sanitize_text (row_get df article "Source title" (VStr []))
          ++ lit "}," ++ nl
          ++ lit "  volume={" ++ py_str (row_get df article "Volume" (VStr []))
          ++ lit "}," ++ nl
          ++ lit "  pages={" ++ pages ++ lit "}," ++ nl
          ++ lit "  year={" ++ str_of_Z year ++ lit "}," ++ nl
          ++ lit "  publisher={"
          ++ sanitize_text (row_get df article "Publisher" (VStr []))
          ++ lit "}," ++ nl
          ++ lit "  doi={" ++ py_str (row_get df article "DOI" (VStr [])) ++ lit "}" ++ nl
          ++ lit "}")
  | _ :: _ :: _ =>
      match column_index "Page start" (columns df) with
      | None => Raise KeyError
      | Some _ => Raise ValueError
      end
  end.

(** The loop of line 172: [except Exception] skips a key whose entry
    cannot be built. *)
Definition final_bib_content (df : DataFrame) (bib_keys : list str)
    (unique_ordered_keys : list str) : list str :=
  key ← unique_ordered_keys;
  match bibtex_entry df bib_keys key with
  | Ok entry => [entry]
  | Raise _ => []
  end.

(** ** analyze_literature *)

Inductive outcome :=
| Completed (references_bib latex_table_tex : str) (article_counts : counts)
| FileNotFound                  (* reported; no file is written *)
| Aborted (e : exn).            (* an exception that nothing catches *)

(** Everything after the citation keys are fixed. *)
Definition report (df : DataFrame) (bib_keys : list str) : outcome :=
  match combined_text df with
  | Raise e => Aborted e
  | Ok texts =>
      let '(combination_keys, article_counts) :=
        group_loop (zip (nanoparticles_found <$> texts) bib_keys) in
      let table := table_data combination_keys in
      let latex_table_rows := latex_row <$> table in
      let unique_ordered_keys := unique_ordered (all_ordered_cite_keys table) in
      Completed (join (nl ++ nl) (final_bib_content df bib_keys unique_ordered_keys))
                (join nl latex_table_rows)
                article_counts
  end.

(** [read_csv] is the outcome of [pd.read_csv(CSV_FILENAME)]: the frame, or
    [None] when the file does not exist. *)
Definition analyze_literature (hash : value -> Z) (read_csv : option DataFrame)
  : outcome :=
  match read_csv with
  | None => FileNotFound
  | Some df =>
      match bib_keys hash df with
      | Raise e => Aborted e
      | Ok keys => report df keys
      end
  end.

End Analyzer.

(** * What the specification says, in its own terms *)

(** The base keys of the articles, before the uniqueness pass. *)
Definition base_keys (Py : Interpreter) (hash : value -> Z) (df : DataFrame)
  : result (list str) :=
  mapM (row_base_key Py hash df) (rows df).

(** How many of the first [i] base keys are [b]. *)
Definition seen_before (bases : list str) (i : nat) (b : str) : nat :=
  length (filter (fun x => x = b) (take i bases)).

(** The first article with a base key keeps it; the [n]-th one, from the
    second on, gets the integer [n] appended. *)
Definition nth_key (b : str) (n : nat) : str :=
  if n =? 1 then b else b ++ str_of_nat n.

(** The variation stands in the text from position [i] on, letter case
    aside. *)
Definition occurs_at (Py : Interpreter) (v text : str) (i : nat) : Prop :=
  Forall2 (fun p c => ignorecase_eq Py p c = true) v (take (length v) (drop i text)).

(** No word character stands at position [i]; there is none outside the
    text. *)
Definition no_word_at (Py : Interpreter) (text : str) (i : nat) : Prop :=
  from_option (is_word Py) false (text !! i) = false.

(** No word character stands right before position [i]. *)
Definition no_word_before (Py : Interpreter) (text : str) (i : nat) : Prop :=
  match i with
  | 0 => True
  | S j => no_word_at Py text j
  end.

(** A whole-word match: an occurrence that no word character touches on
    either side, so that it is not a part of a larger token. *)
Definition whole_word_match (Py : Interpreter) (v text : str) : Prop :=
  exists i, occurs_at Py v text i /\
            no_word_before Py text i /\
            no_word_at Py text (i + length v).

(** A variation that starts and ends with an ASCII letter or digit. *)
Definition alnum_ends (v : str) : bool :=
  match v, last v with
  | p :: _, Some q => is_ascii p && ascii_isalnum p && is_ascii q && ascii_isalnum q
  | _, _ => false
  end.

(** An article with citation key [b] is in the group of the combination
    [c]. *)
Definition in_group (d : list (list str * list str)) (c : list str) (b : str) : Prop :=
  exists keys, (c, keys) ∈ d /\ b ∈ keys.

(** The key of the article comes from the [except] branch. *)
Definition uses_fallback (Py : Interpreter) (df : DataFrame) (row : list value) : bool :=
  match normal_key Py (row_get df row "Authors" VNone)
                      (row_get df row "Year" VNone)
                      (row_get df row "Title" VNone) with
  | Ok _ => false
  | Raise e => caught e
  end.

(** ** Notions used by the further properties *)

(** The characters that [sanitize_text] escapes. *)
Definition special (c : N) : bool :=
  ((c =? 38) || (c =? 37) || (c =? 36) || (c =? 35) || (c =? 95)
   || (c =? 123) || (c =? 125))%N.

(** A special character behind a backslash, any other character as it is. *)
Definition escape (c : N) : str := if special c then [92%N; c] else [c].

(** The replacements of lines 73 and 74, one after the other. *)
Definition replace_all (text : str) : str :=
  foldl (fun text '(char, escaped_char) => replace char escaped_char text)
        text replacements.

(** The value of a decimal numeral read from the left, [acc] being the
    value of the digits already read. *)
Fixpoint uint_value (d : Decimal.uint) (acc : Z) : Z :=
  match d with
  | Decimal.Nil => acc
  | Decimal.D0 l => uint_value l (10 * acc)%Z
  | Decimal.D1 l => uint_value l (10 * acc + 1)%Z
  | Decimal.D2 l => uint_value l (10 * acc + 2)%Z
  | Decimal.D3 l => uint_value l (10 * acc + 3)%Z
  | Decimal.D4 l => uint_value l (10 * acc + 4)%Z
  | Decimal.D5 l => uint_value l (10 * acc + 5)%Z
  | Decimal.D6 l => uint_value l (10 * acc + 6)%Z
  | Decimal.D7 l => uint_value l (10 * acc + 7)%Z
  | Decimal.D8 l => uint_value l (10 * acc + 8)%Z
  | Decimal.D9 l => uint_value l (10 * acc + 9)%Z
  end.

(** The characters a citation key is made of: lower-case letters, digits,
    the minus sign of a negative year and the underscore of [ref_]. *)
Definition key_char (c : N) : bool :=
  ((97 <=? c) && (c <=? 122) || (48 <=? c) && (c <=? 57) || (c =? 45) || (c =? 95))%N.

(** The text before the first comma. *)
Fixpoint before_comma (s : str) : str :=
  match s with
  | [] => []
  | c :: s' => if (c =? 44)%N then [] else c :: before_comma s'
  end.

(** A text that [split()] finds no word in: whitespace only. *)
Definition blank (Py : Interpreter) (s : str) : bool := forallb (isspace Py) s.

(** Two texts that differ at most in the case of their ASCII letters. *)
Definition same_up_to_case (a b : str) : Prop :=
  Forall2 (fun x y => ascii_lower x = ascii_lower y) a b.

(** The articles in which some material was found. *)
Definition classified (articles : list (list str * str)) : list (list str * str) :=
  filter (fun a => a.1 <> []) articles.

(** The citation keys of the articles with the combination [c], in input
    order. *)
Definition members (c : list str) (articles : list (list str * str)) : list str :=
  (filter (fun a => a.1 <> [] /\ combo_key a.1 = c) articles).*2.

(** [d.get(c, [])] on the dict of groups. *)
Fixpoint group_of (d : list (list str * list str)) (c : list str) : list str :=
  match d with
  | [] => []
  | (k, keys) :: d' => if bool_decide (k = c) then keys else group_of d' c
  end.

(** The number of articles with [n] detected materials. *)
Definition with_materials (n : nat) (articles : list (list str * str)) : nat :=
  length (filter (fun a => length a.1 = n) articles).

(** The number of articles with four or more detected materials. *)
Definition with_four_or_more (articles : list (list str * str)) : nat :=
  length (filter (fun a => 4 <= length a.1) articles).


(** * Sample inputs *)

Definition header : list string :=
  ["Title"; "Abstract"; "Keywords"; "Index Keywords"; "Authors"; "Year";
   "Source title"; "Volume"; "Page start"; "Page end"; "Publisher"; "DOI"]%string.

(** A row of [header] with the given title, abstract, authors and year. *)
Definition article_row (title abstract authors year : value) : list value :=
  [title; abstract; VNaN; VNaN; authors; year; VNaN; VNaN; VInt 1; VInt 9; VNaN; VNaN].

(** Three articles that share surname, year and first title word. *)
Definition three_alike : DataFrame := {|
  columns := header;
  rows := [ article_row (VStr (lit "Graphene oxide membranes")) VNaN
                        (VStr (lit "Smith, J.")) (VInt 2020);
            article_row (VStr (lit "Graphene nanofluids")) VNaN
                        (VStr (lit "Smith, A., Gold, B.")) (VInt 2020);
            article_row (VStr (lit "Graphene: a review")) VNaN
                        (VStr (lit "Smith, J.")) (VInt 2020) ];
|}.

Definition three_alike_bases : list str :=
  [lit "smith2020graphene"; lit "smith2020graphene"; lit "smith2020graphene"].

(** Two articles with the base key [li2020tio], then one whose own base key
    is [li2020tio2]. *)
Definition suffix_clash : DataFrame := {|
  columns := header;
  rows := [ article_row (VStr (lit "TiO thin films")) VNaN
                        (VStr (lit "Li, X.")) (VInt 2020);
            article_row (VStr (lit "TiO nanoparticles in water")) VNaN
                        (VStr (lit "Li, Y.")) (VInt 2020);
            article_row (VStr (lit "TiO2 nanofluids")) VNaN
                        (VStr (lit "Li, Z.")) (VInt 2020) ];
|}.

(** Two articles whose detected sets hold Gold and Silver, added in
    opposite orders. *)
Definition gold_silver : list (list str * str) :=
  [ ([lit "Gold"; lit "Silver"], lit "doe2021a");
    ([lit "Silver"; lit "Gold"], lit "roe2022b") ].

(** One article on gold whose year cell is empty. *)
Definition no_year : DataFrame := {|
  columns := header;
  rows := [ article_row (VStr (lit "Gold nanofluids")) VNaN
                        (VStr (lit "Doe, J.")) VNaN ];
|}.

(** One article on gold whose title has no ASCII character: sanitizing
    leaves no word of it, and the key is the fallback key. *)
Definition unreadable_title : DataFrame := {|
  columns := header;
  rows := [ article_row (VStr [37329%N]) (VStr (lit "gold nanoparticles in water"))
                        (VStr (lit "Wang, L.")) (VInt 2020) ];
|}.

(** A table without the column Abstract. *)
Definition no_abstract : DataFrame := {|
  columns := ["Title"; "Keywords"; "Index Keywords"; "Authors"; "Year"]%string;
  rows := [ [VStr (lit "Gold nanofluids"); VStr (lit "gold"); VNaN;
             VStr (lit "Doe, J."); VInt 2021] ];
|}.


(** * Properties *)

(** ** sorted *)

Section SortedFacts.
Context {A K : Type} `{EqDecision K} (key : A -> K) (before : K -> K -> bool).
Hypothesis before_asym : forall a b, before a b = true -> before b a = false.
Hypothesis before_cotrans :
  forall a b c, before a c = true -> before a b = true \/ before b c = true.

Lemma insert_sorted_perm (x : A) (l : list A) :
  insert_sorted key before x l ≡ₚ x :: l.
Proof.
  induction l as [|y l IH]; cbn; [reflexivity|].
  destruct (before (key y) (key x)); [|reflexivity].
  rewrite IH. apply Permutation_swap.
Qed.

Lemma py_sorted_perm (l : list A) : py_sorted key before l ≡ₚ l.
Proof.
  induction l as [|x l IH]; cbn; [reflexivity|].
  rewrite insert_sorted_perm. rewrite IH. reflexivity.
Qed.

Lemma insert_sorted_sorted (x : A) (l : list A) :
  StronglySorted (in_order key before) l -> StronglySorted (in_order key before) (insert_sorted key before x l).
Proof.
  induction 1 as [|y l Hl IH Hy]; cbn.
  - constructor; constructor.
  - destruct (before (key y) (key x)) eqn:Hyx.
    + constructor; [exact IH|].
      rewrite insert_sorted_perm. constructor; [|exact Hy].
      apply before_asym, Hyx.
    + constructor; [constructor; assumption|].
      constructor; [exact Hyx|].
      eapply Forall_impl; [exact Hy|]. intros z Hz. unfold in_order in *.
      destruct (before (key z) (key x)) eqn:Hzx; [|reflexivity].
      destruct (before_cotrans _ (key y) _ Hzx); congruence.
Qed.

Lemma py_sorted_sorted (l : list A) : StronglySorted (in_order key before) (py_sorted key before l).
Proof.
  induction l as [|x l IH]; cbn; [constructor|].
  apply insert_sorted_sorted, IH.
Qed.

Lemma insert_sorted_stable (k : K) (x : A) (l : list A) :
  filter (fun a => key a = k) (insert_sorted key before x l)
  = filter (fun a => key a = k) (x :: l).
Proof.
  induction l as [|y l IH]; cbn; [reflexivity|].
  destruct (before (key y) (key x)) eqn:Hyx; [|reflexivity].
  rewrite !filter_cons in IH |- *. rewrite IH.
  destruct (decide (key y = k)) as [Hy|Hy], (decide (key x = k)) as [Hx|Hx];
    try reflexivity.
  rewrite Hy, Hx in Hyx. rewrite (before_asym _ _ Hyx) in Hyx. discriminate.
Qed.

Lemma py_sorted_stable (k : K) (l : list A) :
  filter (fun a => key a = k) (py_sorted key before l) = filter (fun a => key a = k) l.
Proof.
  unfold py_sorted. induction l as [|x l IH]; cbn [foldr]; [reflexivity|].
  rewrite insert_sorted_stable, !filter_cons, IH. reflexivity.
Qed.

End SortedFacts.

Lemma StronglySorted_lookup {A} (R : A -> A -> Prop) (l : list A) :
  StronglySorted R l ->
  forall i j x y, i < j -> l !! i = Some x -> l !! j = Some y -> R x y.
Proof.
  induction 1 as [|z l Hl IH Hz]; intros i j x y Hij Hi Hj.
  - rewrite lookup_nil in Hi. discriminate.
  - destruct j as [|j]; [lia|]. destruct i as [|i]; cbn in Hi, Hj.
    + injection Hi as <-. rewrite Forall_forall in Hz. apply Hz.
      apply list_elem_of_lookup. eauto.
    + apply (IH i j); [lia|assumption..].
Qed.

Lemma pair_ltb_spec (a b : nat * nat) :
  pair_ltb a b = true <-> a.1 < b.1 \/ (a.1 = b.1 /\ a.2 < b.2).
Proof.
  unfold pair_ltb. rewrite orb_true_iff, andb_true_iff, !Nat.ltb_lt, Nat.eqb_eq.
  reflexivity.
Qed.

Lemma pair_ltb_asym (a b : nat * nat) : pair_ltb a b = true -> pair_ltb b a = false.
Proof.
  intros H. apply not_true_iff_false. rewrite pair_ltb_spec in *. lia.
Qed.

Lemma pair_ltb_cotrans (a b c : nat * nat) :
  pair_ltb a c = true -> pair_ltb a b = true \/ pair_ltb b c = true.
Proof. rewrite !pair_ltb_spec. lia. Qed.

Lemma pair_ltb_false (a b : nat * nat) :
  pair_ltb a b = false -> b.1 < a.1 \/ (b.1 = a.1 /\ b.2 <= a.2).
Proof.
  intros H. apply not_true_iff_false in H. rewrite pair_ltb_spec in H. lia.
Qed.

(** ** The order of the table *)

(** C7: the table is the groups in a new order.  A group never stands
    behind one with fewer materials or, at equal size, with a lower
    frequency, so one with 3 materials and frequency 2 stands before one
    with 2 materials and frequency 10; groups that agree on size and
    frequency keep the order in which they were first met. *)
Theorem table_data_order (combination_keys : list (list str * list str)) :
  let table := table_data combination_keys in
  table ≡ₚ item_of <$> combination_keys /\
  (forall i j x y, i < j -> table !! i = Some x -> table !! j = Some y ->
     length (combo y) < length (combo x)
     \/ (length (combo y) = length (combo x) /\ freq y <= freq x)) /\
  (forall x y, x ∈ table -> y ∈ table ->
     length (combo x) = 3 -> freq x = 2 -> length (combo y) = 2 -> freq y = 10 ->
     exists i j, i < j /\ table !! i = Some x /\ table !! j = Some y) /\
  (forall size frequency,
     filter (fun x => sort_key x = (size, frequency)) table
     = filter (fun x => sort_key x = (size, frequency)) (item_of <$> combination_keys)).
Proof.
  set (before := fun k1 k2 : nat * nat => pair_ltb k2 k1).
  assert (Hasym : forall a b, before a b = true -> before b a = false).
  { intros a b. apply pair_ltb_asym. }
  assert (Hco : forall a b c, before a c = true -> before a b = true \/ before b c = true).
  { intros a b c H. destruct (pair_ltb_cotrans _ b _ H); auto. }
  assert (Hord : forall i j x y, i < j ->
            table_data combination_keys !! i = Some x ->
            table_data combination_keys !! j = Some y ->
            length (combo y) < length (combo x)
            \/ (length (combo y) = length (combo x) /\ freq y <= freq x)).
  { intros i j x y Hij Hi Hj.
    pose proof (py_sorted_sorted sort_key before Hasym Hco (item_of <$> combination_keys))
      as Hs.
    pose proof (StronglySorted_lookup _ _ Hs i j x y Hij Hi Hj) as Hxy.
    apply pair_ltb_false in Hxy. exact Hxy. }
  cbn zeta. split; [apply py_sorted_perm|]. split; [exact Hord|]. split.
  - intros x y Hx Hy Hx3 Hx2 Hy2 Hy10.
    apply list_elem_of_lookup in Hx as [i Hi]. apply list_elem_of_lookup in Hy as [j Hj].
    exists i, j. split; [|split; assumption].
    destruct (Nat.lt_trichotomy i j) as [Hlt|[->|Hgt]]; [exact Hlt| |].
    + rewrite Hi in Hj. injection Hj as ->. lia.
    + pose proof (Hord j i y x Hgt Hj Hi). lia.
  - intros size frequency. apply (py_sorted_stable sort_key before Hasym).
Qed.

(** ** The sanitizer *)

Section Sanitizer.
Context (Py : Interpreter).

Lemma encode_ascii_ignore_ascii (s : str) :
  Forall (fun c => is_ascii c = true) (encode_ascii_ignore s).
Proof.
  unfold encode_ascii_ignore. apply Forall_forall. intros c Hc.
  apply list_elem_of_filter in Hc. tauto.
Qed.

Lemma replace_ascii (c : N) (r s : str) :
  Forall (fun c => is_ascii c = true) r ->
  Forall (fun c => is_ascii c = true) s ->
  Forall (fun c => is_ascii c = true) (replace c r s).
Proof.
  intros Hr Hs. unfold replace. induction Hs as [|x s Hx Hs IH]; simpl.
  - constructor.
  - apply Forall_app. split; [|exact IH].
    destruct (x =? c)%N; [exact Hr|]. constructor; [exact Hx|constructor].
Qed.

(** C10: whatever the input, a string or not, [sanitize_text] returns only
    ASCII characters, and the empty string when the input is not a string. *)
Theorem sanitize_text_ascii (v : value) :
  Forall (fun c => (c < 128)%N) (sanitize_text Py v) /\
  match v with
  | VStr _ => True
  | _ => sanitize_text Py v = []
  end.
Proof.
  split; [|destruct v; reflexivity].
  eapply Forall_impl; [|intros c Hc; apply N.ltb_lt; exact Hc].
  destruct v; try constructor.
  unfold sanitize_text, decode_utf8.
  generalize (encode_ascii_ignore_ascii (normalize_NFKD Py s)).
  generalize (encode_ascii_ignore (normalize_NFKD Py s)) as t.
  assert (Hrep : Forall (fun cr => Forall (fun c => is_ascii c = true) cr.2) replacements).
  { unfold replacements. repeat constructor. }
  induction Hrep as [|[c r] l Hr _ IH]; intros t Ht; simpl; [exact Ht|].
  apply IH. apply replace_ascii; assumption.
Qed.

End Sanitizer.

(** ** The citation keys *)

Section Keys.
Context (Py : Interpreter) (hash : value -> Z) (df : DataFrame).

Lemma key_loop_tally (rows : list (list value)) :
  forall (seen : gmap str nat) (pre bases : list str),
    (forall b, default 0 (seen !! b) = length (filter (fun x => x = b) pre)) ->
    mapM (row_base_key Py hash df) rows = Ok bases ->
    exists keys,
      key_loop Py hash df seen rows = Ok keys /\
      length keys = length bases /\
      forall i b, bases !! i = Some b ->
        keys !! i
        = Some (nth_key b (S (length (filter (fun x => x = b) (pre ++ take i bases))))).
Proof.
  induction rows as [|row rest IH]; intros seen pre bases Hseen Hbases.
  - injection Hbases as <-. exists []. repeat split. intros i b Hi.
    rewrite lookup_nil in Hi. discriminate.
  - cbn in Hbases |- *. unfold mbind, result_bind in Hbases |- *.
    destruct (row_base_key Py hash df row) as [b0|e]; [|discriminate].
    destruct (mapM (row_base_key Py hash df) rest) as [bs|e] eqn:Hbs; [|discriminate].
    injection Hbases as <-.
    set (count := default 0 (seen !! b0)).
    destruct (IH (<[b0 := count + 1]> seen) (pre ++ [b0]) bs) as (keys & Hk & Hlen & Hnth).
    + intros b. rewrite filter_app, length_app.
      destruct (decide (b0 = b)) as [->|Hne].
      * rewrite lookup_insert_eq. cbn. rewrite decide_True by reflexivity.
        subst count. rewrite Hseen. reflexivity.
      * rewrite lookup_insert_ne by exact Hne. rewrite Hseen.
        cbn. rewrite decide_False by exact Hne. cbn. lia.
    + reflexivity.
    + rewrite Hk. eexists. split; [reflexivity|]. split; [cbn; lia|].
      intros [|i] b Hi; cbn in Hi |- *.
      * injection Hi as <-. f_equal. rewrite app_nil_r, <- Hseen. fold count.
        unfold nth_key. rewrite Nat.add_1_r.
        destruct count; reflexivity.
      * refine (eq_trans (Hnth i b Hi) _). do 3 f_equal.
        rewrite <- app_assoc. reflexivity.
Qed.

(** C4: the uniqueness pass is a running tally in input order.  The first
    article with a base key keeps it, and the N-th one (N >= 2) gets the
    integer N appended, so three articles with the base key X get X, X2, X3. *)
Theorem bib_keys_running_tally (bases : list str) :
  base_keys Py hash df = Ok bases ->
  exists keys,
    bib_keys Py hash df = Ok keys /\
    length keys = length bases /\
    (forall i b, bases !! i = Some b ->
       keys !! i = Some (nth_key b (S (seen_before bases i b)))) /\
    (forall X, bases = [X; X; X] -> keys = [X; X ++ lit "2"; X ++ lit "3"]).
Proof.
  intros Hbases.
  destruct (key_loop_tally (rows df) ∅ [] bases) as (keys & Hk & Hlen & Hnth).
  - intros b. rewrite lookup_empty. reflexivity.
  - exact Hbases.
  - exists keys. split; [exact Hk|]. split; [exact Hlen|]. split.
    + intros i b Hi. rewrite (Hnth i b Hi). reflexivity.
    + intros X ->.
      pose proof (Hnth 0 X eq_refl) as H0.
      pose proof (Hnth 1 X eq_refl) as H1.
      pose proof (Hnth 2 X eq_refl) as H2.
      cbn in H0, H1, H2.
      repeat (rewrite decide_True in H1 by reflexivity; cbn in H1).
      repeat (rewrite decide_True in H2 by reflexivity; cbn in H2).
      destruct keys as [|k0 [|k1 [|k2 [|? ?]]]]; try discriminate.
      cbn in H0, H1, H2.
      injection H0 as ->. injection H1 as ->. injection H2 as ->. reflexivity.
Qed.

(** C5, as the code has it: with a well-formed author and title, an absent
    year gives the normal key with [nd], a year that [int] accepts gives
    the normal key with that integer, and a present year that [int]
    rejects with ValueError sends the call to the fallback key. *)
Theorem generate_bib_key_year (authors year title : value) (a t : str) :
  clean_author_of Py (sanitize_text Py (VStr (py_str authors))) = Ok a ->
  clean_title_of Py (sanitize_text Py (VStr (py_str title))) = Ok t ->
  (notna year = false ->
     generate_bib_key Py hash authors year title = Ok (a ++ lit "nd" ++ t)) /\
  (forall z, notna year = true -> py_int Py year = Ok z ->
     generate_bib_key Py hash authors year title = Ok (a ++ str_of_Z z ++ t)) /\
  (notna year = true -> py_int Py year = Raise ValueError ->
     generate_bib_key Py hash authors year title = Ok (fallback_key hash title)).
Proof.
  intros Ha Ht. unfold generate_bib_key, normal_key, year_str_of.
  rewrite Ha, Ht. cbn. repeat split.
  - intros ->. reflexivity.
  - intros z -> ->. reflexivity.
  - intros -> ->. reflexivity.
Qed.

End Keys.

(** C3: on [suffix_clash] the second article gets [li2020tio2] as the
    second holder of [li2020tio], and the third keeps its own base key
    [li2020tio2]: two articles end up with the same key. *)
Theorem suffix_clash_keys :
  bib_keys cpython_ascii (fun _ => 0%Z) suffix_clash
  = Ok [lit "li2020tio"; lit "li2020tio2"; lit "li2020tio2"] /\
  ~ NoDup [lit "li2020tio"; lit "li2020tio2"; lit "li2020tio2"].
Proof.
  split; [reflexivity|].
  intros H. apply NoDup_cons in H as [_ H]. apply NoDup_cons in H as [H _].
  apply H. left.
Qed.

Lemma bib_keys_running_tally_witness :
  base_keys cpython_ascii (fun _ => 0%Z) three_alike = Ok three_alike_bases /\
  exists keys,
    bib_keys cpython_ascii (fun _ => 0%Z) three_alike = Ok keys /\
    length keys = length three_alike_bases /\
    (forall i b, three_alike_bases !! i = Some b ->
       keys !! i = Some (nth_key b (S (seen_before three_alike_bases i b)))) /\
    (forall X, three_alike_bases = [X; X; X] ->
       keys = [X; X ++ lit "2"; X ++ lit "3"]).
Proof.
  split; [reflexivity|].
  apply (bib_keys_running_tally cpython_ascii (fun _ => 0%Z) three_alike
           three_alike_bases).
  reflexivity.
Defined.

(** C5 fails as stated: the author and the title are well formed and the
    year is the text [n.d.], yet the key is the fallback key and not
    [smithndgraphene]. *)
Lemma generate_bib_key_text_year :
  clean_author_of cpython_ascii
    (sanitize_text cpython_ascii (VStr (py_str (VStr (lit "Smith, John")))))
  = Ok (lit "smith") /\
  clean_title_of cpython_ascii
    (sanitize_text cpython_ascii (VStr (py_str (VStr (lit "Graphene oxide")))))
  = Ok (lit "graphene") /\
  generate_bib_key cpython_ascii (fun _ => 42%Z)
    (VStr (lit "Smith, John")) (VStr (lit "n.d.")) (VStr (lit "Graphene oxide"))
  = Ok (lit "ref_42") /\
  generate_bib_key cpython_ascii (fun _ => 42%Z)
    (VStr (lit "Smith, John")) (VStr (lit "n.d.")) (VStr (lit "Graphene oxide"))
  <> Ok (lit "smithndgraphene").
Proof. repeat split; try reflexivity. discriminate. Qed.

Lemma generate_bib_key_year_witness :
  clean_author_of cpython_ascii
    (sanitize_text cpython_ascii (VStr (py_str (VStr (lit "Smith, John")))))
  = Ok (lit "smith") /\
  clean_title_of cpython_ascii
    (sanitize_text cpython_ascii (VStr (py_str (VStr (lit "Graphene oxide")))))
  = Ok (lit "graphene") /\
  notna (VStr (lit "n.d.")) = true /\
  py_int cpython_ascii (VStr (lit "n.d.")) = Raise ValueError /\
  generate_bib_key cpython_ascii (fun _ => 42%Z)
    (VStr (lit "Smith, John")) (VStr (lit "n.d.")) (VStr (lit "Graphene oxide"))
  = Ok (fallback_key (fun _ => 42%Z) (VStr (lit "Graphene oxide"))).
Proof.
  split; [reflexivity|]. split; [reflexivity|].
  split; [reflexivity|]. split; [reflexivity|].
  apply (generate_bib_key_year cpython_ascii (fun _ => 42%Z)
           (VStr (lit "Smith, John")) (VStr (lit "n.d.")) (VStr (lit "Graphene oxide"))
           (lit "smith") (lit "graphene")); reflexivity.
Defined.

(** ** The search *)

Section Search.
Context (Py : Interpreter).
Hypothesis ignorecase_alnum :
  forall p c, ascii_isalnum p = true -> is_ascii c = false ->
              uni_ignorecase Py p c = true -> uni_isalnum Py c = true.

Lemma ascii_lower_alnum (p c : N) :
  ascii_isalnum p = true -> ascii_lower p = ascii_lower c -> ascii_isalnum c = true.
Proof.
  unfold ascii_isalnum, ascii_lower.
  repeat match goal with
         | |- context [(?a <=? ?b)%N] => destruct (N.leb_spec a b)
         end; cbn; intros; try discriminate; try reflexivity; lia.
Qed.

Lemma ignorecase_word (p c : N) :
  is_ascii p = true -> ascii_isalnum p = true ->
  ignorecase_eq Py p c = true -> is_word Py c = true.
Proof.
  intros Hp Hal. unfold ignorecase_eq, is_word, isalnum. rewrite Hp. cbn.
  destruct (is_ascii c) eqn:Hc.
  - intros H%N.eqb_eq. rewrite (ascii_lower_alnum p c Hal H). reflexivity.
  - intros H. rewrite (ignorecase_alnum p c Hal Hc H). reflexivity.
Qed.

Lemma match_literal_spec (v text : str) :
  match_literal Py v text = true <->
  Forall2 (fun p c => ignorecase_eq Py p c = true) v (take (length v) text).
Proof.
  revert text. induction v as [|p v IH]; intros text; cbn.
  - split; [constructor|reflexivity].
  - destruct text as [|c text]; cbn.
    + split; [discriminate|]. intros H. inversion H.
    + rewrite andb_true_iff, IH. split.
      * intros [? ?]. constructor; assumption.
      * intros H. inversion H; subst. split; assumption.
Qed.

Lemma occurs_at_lookup (v text : str) (i j : nat) (p : N) :
  occurs_at Py v text i -> v !! j = Some p ->
  exists c, text !! (i + j) = Some c /\ ignorecase_eq Py p c = true.
Proof.
  intros H Hj. destruct (Forall2_lookup_l _ _ _ _ _ H Hj) as (c & Hc & Hpc).
  exists c. split; [|exact Hpc].
  apply lookup_take_Some in Hc as [Hc _]. rewrite lookup_drop in Hc. exact Hc.
Qed.

Lemma match_at_spec (v text : str) (i : nat) :
  alnum_ends v = true ->
  match_at Py v text i = true <->
  occurs_at Py v text i /\ no_word_before Py text i /\ no_word_at Py text (i + length v).
Proof.
  intros Hends. unfold alnum_ends in Hends.
  destruct v as [|p v']; [discriminate|].
  destruct (last (p :: v')) as [q|] eqn:Hlast; [|discriminate].
  apply andb_true_iff in Hends as [Hends Hq2]. apply andb_true_iff in Hends as [Hends Hq1].
  apply andb_true_iff in Hends as [Hp1 Hp2].
  rewrite last_lookup in Hlast. cbn [length pred] in Hlast.
  assert (Hfirst : occurs_at Py (p :: v') text i ->
            from_option (is_word Py) false (text !! i) = true).
  { intros H. destruct (occurs_at_lookup _ _ i 0 p H eq_refl) as (c & Hc & Hpc).
    rewrite Nat.add_0_r in Hc. rewrite Hc. cbn.
    apply (ignorecase_word p c Hp1 Hp2 Hpc). }
  assert (Hend : occurs_at Py (p :: v') text i ->
            from_option (is_word Py) false (text !! (i + length v')) = true).
  { intros H. destruct (occurs_at_lookup _ _ i _ q H Hlast) as (c & Hc & Hqc).
    rewrite Hc. cbn. apply (ignorecase_word q c Hq1 Hq2 Hqc). }
  unfold match_at. rewrite !andb_true_iff, match_literal_spec.
  fold (occurs_at Py (p :: v') text i).
  cbn [length]. rewrite Nat.add_succ_r. unfold at_boundary, no_word_at.
  split.
  - intros [[Hb Hocc] He]. rewrite (Hfirst Hocc) in Hb. rewrite (Hend Hocc) in He.
    split; [exact Hocc|]. split.
    + destruct i as [|j]; [exact I|]. cbn. unfold no_word_at.
      destruct (from_option (is_word Py) false (text !! j)); [discriminate|reflexivity].
    + destruct (from_option (is_word Py) false (text !! S (i + length v')));
        [discriminate|reflexivity].
  - intros (Hocc & Hb & He). rewrite (Hfirst Hocc), (Hend Hocc), He.
    split; [split; [|exact Hocc]|reflexivity].
    destruct i as [|j]; [reflexivity|]. cbn in Hb. unfold no_word_at in Hb.
    rewrite Hb. reflexivity.
Qed.

Lemma search_spec (v text : str) :
  alnum_ends v = true ->
  search Py v text = true <-> whole_word_match Py v text.
Proof.
  intros Hends. unfold search, whole_word_match. rewrite existsb_exists. split.
  - intros (i & _ & Hi). exists i. apply (match_at_spec v text i Hends), Hi.
  - intros (i & Hi). exists i. split; [|apply (match_at_spec v text i Hends), Hi].
    apply in_seq. destruct Hi as (Hocc & _ & _).
    destruct v as [|p v']; [discriminate|].
    destruct (occurs_at_lookup _ _ i 0 p Hocc eq_refl) as (c & Hc & _).
    apply lookup_lt_Some in Hc. lia.
Qed.

Lemma nanoparticles_found_fold (text name : str) (map : list (str * list str)) :
  forall found,
    name ∈ foldl (fun found '(name, variations) =>
                    if existsb (fun v => search Py v text) variations
                    then set_add name found else found) found map
    <-> name ∈ found \/
        exists variations, (name, variations) ∈ map /\
                           existsb (fun v => search Py v text) variations = true.
Proof.
  induction map as [|[n vs] map IH]; intros found; cbn [foldl].
  - split; [auto|]. intros [H|(vs & H & _)]; [exact H|]. inversion H.
  - rewrite IH. split.
    + intros [H|(vs' & Hin & Hs)].
      * destruct (existsb (fun v => search Py v text) vs) eqn:Hvs; [|auto].
        unfold set_add in H. case_bool_decide; [auto|].
        apply elem_of_app in H as [H|H]; [auto|].
        apply list_elem_of_singleton in H as ->. right. exists vs. split; [left|exact Hvs].
      * right. exists vs'. split; [right; exact Hin|exact Hs].
    + intros [H|(vs' & Hin & Hs)].
      * left. destruct (existsb (fun v => search Py v text) vs); [|exact H].
        unfold set_add. case_bool_decide; [exact H|]. apply elem_of_app. auto.
      * apply elem_of_cons in Hin as [Heq|Hin].
        -- injection Heq as -> ->. left. rewrite Hs. unfold set_add.
           case_bool_decide; [assumption|]. apply elem_of_app. right. left.
        -- right. exists vs'. auto.
Qed.

Lemma NANOPARTICLE_MAP_alnum_ends (name : str) (variations : list str) (v : str) :
  (name, variations) ∈ NANOPARTICLE_MAP -> v ∈ variations -> alnum_ends v = true.
Proof.
  assert (H : forallb (fun nv => forallb alnum_ends nv.2) NANOPARTICLE_MAP = true)
    by reflexivity.
  rewrite forallb_forall in H. intros Hn Hv.
  apply list_elem_of_In in Hn. specialize (H _ Hn). cbn in H.
  rewrite forallb_forall in H. apply H. apply list_elem_of_In. exact Hv.
Qed.

(** C2: a canonical name is in the detected set exactly when one of its
    variations has a whole-word match in the text, letter case aside; the
    text [Author of gold nanoparticles] yields Gold through the word
    [gold], and in the text [Authors] the variation [Au] has no match. *)
Theorem nanoparticles_found_whole_word :
  (forall text name,
     name ∈ nanoparticles_found Py text <->
     exists variations v,
       (name, variations) ∈ NANOPARTICLE_MAP /\ v ∈ variations /\
       whole_word_match Py v text) /\
  search Py (lit "gold") (lit "Author of gold nanoparticles") = true /\
  lit "Gold" ∈ nanoparticles_found Py (lit "Author of gold nanoparticles") /\
  search Py (lit "Au") (lit "Authors") = false /\
  nanoparticles_found Py (lit "Authors") = [].
Proof.
  split; [|repeat split; try reflexivity; vm_compute; left].
  intros text name. unfold nanoparticles_found. rewrite nanoparticles_found_fold.
  split.
  - intros [H|(vs & Hin & Hs)]; [inversion H|].
    apply existsb_exists in Hs as (v & Hv & Hs). apply list_elem_of_In in Hv.
    exists vs, v. split; [exact Hin|]. split; [exact Hv|].
    apply search_spec; [|exact Hs]. apply (NANOPARTICLE_MAP_alnum_ends name vs v Hin Hv).
  - intros (vs & v & Hin & Hv & Hm). right. exists vs. split; [exact Hin|].
    apply existsb_exists. exists v. split; [apply list_elem_of_In; exact Hv|].
    apply search_spec; [|exact Hm]. apply (NANOPARTICLE_MAP_alnum_ends name vs v Hin Hv).
Qed.

End Search.

Lemma nanoparticles_found_whole_word_witness :
  (forall p c, ascii_isalnum p = true -> is_ascii c = false ->
               uni_ignorecase cpython_ascii p c = true ->
               uni_isalnum cpython_ascii c = true) /\
  (forall text name,
     name ∈ nanoparticles_found cpython_ascii text <->
     exists variations v,
       (name, variations) ∈ NANOPARTICLE_MAP /\ v ∈ variations /\
       whole_word_match cpython_ascii v text) /\
  search cpython_ascii (lit "gold") (lit "Author of gold nanoparticles") = true /\
  lit "Gold" ∈ nanoparticles_found cpython_ascii (lit "Author of gold nanoparticles") /\
  search cpython_ascii (lit "Au") (lit "Authors") = false /\
  nanoparticles_found cpython_ascii (lit "Authors") = [].
Proof.
  assert (H : forall p c, ascii_isalnum p = true -> is_ascii c = false ->
                          uni_ignorecase cpython_ascii p c = true ->
                          uni_isalnum cpython_ascii c = true).
  { intros p c Hp Hc Hpc. cbn in Hpc. apply N.eqb_eq in Hpc. subst c.
    unfold is_ascii in Hc. apply N.ltb_ge in Hc.
    unfold ascii_isalnum in Hp.
    rewrite !orb_true_iff, !andb_true_iff, !N.leb_le in Hp. lia. }
  split; [exact H|].
  apply (nanoparticles_found_whole_word cpython_ascii H).
Defined.

(** ** The groups *)

Lemma str_ltb_irrefl (a : str) : str_ltb a a = false.
Proof.
  induction a as [|x a IH]; cbn; [reflexivity|].
  rewrite N.ltb_irrefl, N.eqb_refl, IH. reflexivity.
Qed.

Lemma str_ltb_trans (a b c : str) :
  str_ltb a b = true -> str_ltb b c = true -> str_ltb a c = true.
Proof.
  revert b c. induction a as [|x a IH]; intros [|y b] [|z c]; cbn;
    try discriminate; try reflexivity.
  rewrite !orb_true_iff, !andb_true_iff, !N.ltb_lt, !N.eqb_eq.
  intros [H1|[-> H1]] [H2|[-> H2]]; [left; lia|left; lia|left; lia|].
  right. split; [reflexivity|]. apply (IH b c H1 H2).
Qed.

Lemma str_ltb_total (a b : str) : a = b \/ str_ltb a b = true \/ str_ltb b a = true.
Proof.
  revert b. induction a as [|x a IH]; intros [|y b]; cbn; auto.
  rewrite !orb_true_iff, !andb_true_iff, !N.ltb_lt, !N.eqb_eq.
  destruct (N.lt_trichotomy x y) as [H|[->|H]]; [auto| |auto].
  destruct (IH b) as [->|[H|H]]; auto.
Qed.

Lemma str_ltb_asym (a b : str) : str_ltb a b = true -> str_ltb b a = false.
Proof.
  intros H. destruct (str_ltb b a) eqn:Hba; [|reflexivity].
  rewrite <- (str_ltb_irrefl a). symmetry. apply (str_ltb_trans a b a H Hba).
Qed.

Lemma str_ltb_cotrans (a b c : str) :
  str_ltb a c = true -> str_ltb a b = true \/ str_ltb b c = true.
Proof.
  intros H. destruct (str_ltb_total a b) as [->|[Hab|Hba]]; auto.
  right. apply (str_ltb_trans b a c Hba H).
Qed.

Lemma combo_key_perm (found : list str) : combo_key found ≡ₚ found.
Proof. apply py_sorted_perm. Qed.

Lemma combo_key_same_set (f1 f2 : list str) :
  NoDup f1 -> NoDup f2 -> (forall x, x ∈ f1 <-> x ∈ f2) -> combo_key f1 = combo_key f2.
Proof.
  intros H1 H2 Hset.
  apply (StronglySorted_unique_strong (in_order id str_ltb)).
  - intros x y _ _ Hxy Hyx. unfold in_order, id in *.
    destruct (str_ltb_total x y) as [?|[?|?]]; [assumption|congruence..].
  - apply py_sorted_sorted; [apply str_ltb_asym|apply str_ltb_cotrans].
  - apply py_sorted_sorted; [apply str_ltb_asym|apply str_ltb_cotrans].
  - rewrite !combo_key_perm. apply NoDup_Permutation; assumption.
Qed.

Lemma dict_append_new (c : list str) (b : str) (d : list (list str * list str)) :
  in_group (dict_append c b d) c b.
Proof.
  induction d as [|[k ks] d IH]; cbn.
  - exists [b]. split; left.
  - case_bool_decide as Hk.
    + subst k. exists (ks ++ [b]). split; [left|]. apply elem_of_app. right. left.
    + destruct IH as (ks' & Hin & Hb). exists ks'. split; [right; exact Hin|exact Hb].
Qed.

Lemma dict_append_old (c c' : list str) (b b' : str) (d : list (list str * list str)) :
  in_group d c' b' -> in_group (dict_append c b d) c' b'.
Proof.
  induction d as [|[k ks] d IH]; cbn; intros (ks' & Hin & Hb).
  - inversion Hin.
  - apply elem_of_cons in Hin as [Heq|Hin].
    + injection Heq as <- <-. case_bool_decide.
      * exists (ks' ++ [b]). split; [left|]. apply elem_of_app. left. exact Hb.
      * exists ks'. split; [left|exact Hb].
    + case_bool_decide.
      * exists ks'. split; [right; exact Hin|exact Hb].
      * destruct IH as (ks2 & Hin2 & Hb2); [exists ks'; auto|].
        exists ks2. split; [right; exact Hin2|exact Hb2].
Qed.

Lemma dict_append_keys (c : list str) (b : str) (d : list (list str * list str)) :
  (dict_append c b d).*1 = if bool_decide (c ∈ d.*1) then d.*1 else d.*1 ++ [c].
Proof.
  induction d as [|[k ks] d IH]; cbn; [reflexivity|].
  destruct (decide (k = c)) as [->|Hk].
  - rewrite !bool_decide_eq_true_2; [reflexivity|left|reflexivity].
  - rewrite (bool_decide_eq_false_2 (k = c)) by exact Hk. cbn. rewrite IH.
    destruct (decide (c ∈ d.*1)) as [Hc|Hc].
    + rewrite !bool_decide_eq_true_2; [reflexivity|right; exact Hc|exact Hc].
    + rewrite !bool_decide_eq_false_2; [reflexivity| |exact Hc].
      intros [?|?]%elem_of_cons; [congruence|contradiction].
Qed.

Lemma dict_append_NoDup (c : list str) (b : str) (d : list (list str * list str)) :
  NoDup d.*1 -> NoDup (dict_append c b d).*1.
Proof.
  intros H. rewrite dict_append_keys. case_bool_decide as Hc; [exact H|].
  apply NoDup_app. split; [exact H|]. split; [|apply NoDup_singleton].
  intros x Hx Hx'. apply list_elem_of_singleton in Hx' as ->. contradiction.
Qed.

Lemma group_loop_fold (articles : list (list str * str)) :
  forall st,
    let st' := foldl (fun st '(found, bib_key) => group_step st found bib_key)
                     st articles in
    (NoDup st.1.*1 -> NoDup st'.1.*1) /\
    (forall c b, in_group st.1 c b -> in_group st'.1 c b) /\
    (forall i found b, articles !! i = Some (found, b) -> found <> [] ->
       in_group st'.1 (combo_key found) b).
Proof.
  induction articles as [|[f k] articles IH]; intros st; cbn zeta; cbn [foldl].
  - split; [auto|]. split; [auto|]. intros i found b Hi. rewrite lookup_nil in Hi.
    discriminate.
  - destruct (IH (group_step st f k)) as (Hnd & Hold & Hnew). cbn zeta in *.
    assert (Hstep : forall c b, in_group st.1 c b -> in_group (group_step st f k).1 c b).
    { intros c b H. unfold group_step. destruct (0 <? length f); [|exact H].
      cbn. apply dict_append_old, H. }
    split; [|split].
    + intros H. apply Hnd. unfold group_step. destruct (0 <? length f); [|exact H].
      cbn. apply dict_append_NoDup, H.
    + intros c b H. apply Hold, Hstep, H.
    + intros [|i] found b Hi Hne; cbn in Hi.
      * injection Hi as -> ->. apply Hold. unfold group_step.
        destruct found as [|x found]; [contradiction|]. cbn. apply dict_append_new.
      * apply (Hnew i found b Hi Hne).
Qed.

Lemma NoDup_fst_unique {A B} (l : list (A * B)) (a : A) (b1 b2 : B) :
  NoDup l.*1 -> (a, b1) ∈ l -> (a, b2) ∈ l -> b1 = b2.
Proof.
  induction l as [|[a' b'] l IH]; cbn; intros Hnd H1 H2; [inversion H1|].
  apply NoDup_cons in Hnd as [Hnotin Hnd].
  apply elem_of_cons in H1 as [H1|H1], H2 as [H2|H2].
  - congruence.
  - injection H1 as <- <-. exfalso. apply Hnotin.
    apply (list_elem_of_fmap_2 fst) in H2. exact H2.
  - injection H2 as <- <-. exfalso. apply Hnotin.
    apply (list_elem_of_fmap_2 fst) in H1. exact H1.
  - apply (IH Hnd H1 H2).
Qed.

(** C6: two articles whose detected sets hold the same names, in whatever
    order the names were added, get the same combination key and their
    citation keys stand in one group, the only one with that key. *)
Theorem same_set_same_group (articles : list (list str * str))
    (i j : nat) (found_i found_j : list str) (key_i key_j : str) :
  NoDup found_i -> NoDup found_j ->
  articles !! i = Some (found_i, key_i) ->
  articles !! j = Some (found_j, key_j) ->
  found_i <> [] ->
  (forall name, name ∈ found_i <-> name ∈ found_j) ->
  combo_key found_i = combo_key found_j /\
  exists keys,
    (combo_key found_i, keys) ∈ (group_loop articles).1 /\
    key_i ∈ keys /\ key_j ∈ keys /\
    forall keys', (combo_key found_i, keys') ∈ (group_loop articles).1 -> keys' = keys.
Proof.
  intros Hi Hj Hai Haj Hne Hset.
  pose proof (combo_key_same_set found_i found_j Hi Hj Hset) as Hkey.
  split; [exact Hkey|].
  assert (Hne' : found_j <> []).
  { intros ->. destruct found_i as [|x f]; [contradiction|].
    specialize (Hset x). destruct Hset as [Hset _].
    specialize (Hset ltac:(left)). inversion Hset. }
  unfold group_loop.
  destruct (group_loop_fold articles
              ([], {| mono := 0; binary := 0; ternary := 0; other := 0 |}))
    as (Hnd & _ & Hnew). cbn zeta in *.
  specialize (Hnd ltac:(constructor)).
  destruct (Hnew i found_i key_i Hai Hne) as (ks & Hin & Hki).
  destruct (Hnew j found_j key_j Haj Hne') as (ks' & Hin' & Hkj).
  rewrite <- Hkey in Hin'.
  pose proof (NoDup_fst_unique _ _ _ _ Hnd Hin Hin') as <-.
  exists ks. repeat split; try assumption.
  intros keys' H. apply (NoDup_fst_unique _ _ _ _ Hnd H Hin).
Qed.

Lemma set_add_NoDup (x : str) (s : list str) : NoDup s -> NoDup (set_add x s).
Proof.
  intros H. unfold set_add. case_bool_decide as Hx; [exact H|].
  apply NoDup_app. split; [exact H|]. split; [|apply NoDup_singleton].
  intros y Hy Hy'. apply list_elem_of_singleton in Hy' as ->. contradiction.
Qed.

(** The detected set of the script has no duplicates, as the theorem on
    groups asks. *)
Lemma nanoparticles_found_NoDup (Py : Interpreter) (text : str) :
  NoDup (nanoparticles_found Py text).
Proof.
  unfold nanoparticles_found. generalize (NoDup_nil_2 (A := str)).
  generalize (@nil str) as found.
  induction NANOPARTICLE_MAP as [|[n vs] map IH]; intros found H; cbn [foldl];
    [exact H|].
  apply IH. destruct (existsb _ vs); [apply set_add_NoDup, H|exact H].
Qed.

Lemma same_set_same_group_witness :
  NoDup [lit "Gold"; lit "Silver"] /\
  NoDup [lit "Silver"; lit "Gold"] /\
  gold_silver !! 0 = Some ([lit "Gold"; lit "Silver"], lit "doe2021a") /\
  gold_silver !! 1 = Some ([lit "Silver"; lit "Gold"], lit "roe2022b") /\
  [lit "Gold"; lit "Silver"] <> [] /\
  (forall name, name ∈ [lit "Gold"; lit "Silver"] <-> name ∈ [lit "Silver"; lit "Gold"]) /\
  combo_key [lit "Gold"; lit "Silver"] = combo_key [lit "Silver"; lit "Gold"] /\
  exists keys,
    (combo_key [lit "Gold"; lit "Silver"], keys) ∈ (group_loop gold_silver).1 /\
    lit "doe2021a" ∈ keys /\ lit "roe2022b" ∈ keys /\
    forall keys', (combo_key [lit "Gold"; lit "Silver"], keys') ∈ (group_loop gold_silver).1 ->
                  keys' = keys.
Proof.
  assert (H1 : NoDup [lit "Gold"; lit "Silver"]) .
  { apply NoDup_cons. split; [|apply NoDup_singleton].
    intros H%list_elem_of_singleton. discriminate. }
  assert (H2 : NoDup [lit "Silver"; lit "Gold"]) .
  { apply NoDup_cons. split; [|apply NoDup_singleton].
    intros H%list_elem_of_singleton. discriminate. }
  assert (H3 : forall name, name ∈ [lit "Gold"; lit "Silver"] <-> name ∈ [lit "Silver"; lit "Gold"]).
  { intros name. rewrite !elem_of_cons. tauto. }
  split; [exact H1|]. split; [exact H2|]. split; [reflexivity|]. split; [reflexivity|].
  split; [discriminate|]. split; [exact H3|].
  apply (same_set_same_group gold_silver 0 1 [lit "Gold"; lit "Silver"]
           [lit "Silver"; lit "Gold"] (lit "doe2021a") (lit "roe2022b") H1 H2);
    [reflexivity|reflexivity|discriminate|exact H3].
Defined.

(** ** The bibliography *)

Lemma unique_ordered_fold (l : list str) :
  forall seen,
    exists rest,
      foldl (fun seen key => set_add key seen) seen l = seen ++ rest /\
      (NoDup seen -> NoDup (seen ++ rest)) /\
      (forall x, x ∈ seen ++ rest <-> x ∈ seen \/ x ∈ l).
Proof.
  induction l as [|k l IH]; intros seen; cbn [foldl].
  - exists []. rewrite app_nil_r. split; [reflexivity|]. split; [auto|].
    intros x. split; [auto|]. intros [H|H]; [exact H|inversion H].
  - destruct (IH (set_add k seen)) as (rest & Heq & Hnd & Hin).
    unfold set_add in *. case_bool_decide as Hk.
    + exists rest. split; [exact Heq|]. split; [exact Hnd|].
      intros x. rewrite Hin, elem_of_cons. split; [tauto|].
      intros [H|[->|H]]; auto.
    + exists (k :: rest). rewrite <- app_assoc in Heq, Hnd, Hin. cbn in Heq, Hnd, Hin.
      split; [exact Heq|]. split.
      * intros H. apply Hnd. apply NoDup_app. split; [exact H|].
        split; [|apply NoDup_singleton].
        intros y Hy Hy'. apply list_elem_of_singleton in Hy' as ->. contradiction.
      * intros x. rewrite Hin, elem_of_app, list_elem_of_singleton, elem_of_cons. tauto.
Qed.

Lemma unique_ordered_NoDup (l : list str) : NoDup (unique_ordered l).
Proof.
  destruct (unique_ordered_fold l []) as (rest & Heq & Hnd & _).
  unfold unique_ordered. rewrite Heq. apply Hnd. constructor.
Qed.

Lemma unique_ordered_elem (l : list str) (x : str) : x ∈ unique_ordered l <-> x ∈ l.
Proof.
  destruct (unique_ordered_fold l []) as (rest & Heq & _ & Hin).
  unfold unique_ordered. rewrite Heq, Hin. split; [|auto].
  intros [H|H]; [inversion H|exact H].
Qed.

Lemma unique_ordered_middle (l1 l2 : list str) (k : str) :
  k ∉ l1 ->
  exists rest, unique_ordered (l1 ++ k :: l2) = unique_ordered l1 ++ k :: rest.
Proof.
  intros Hfirst. unfold unique_ordered at 1. rewrite foldl_app. cbn [foldl].
  fold (unique_ordered l1).
  replace (set_add k (unique_ordered l1)) with (unique_ordered l1 ++ [k]).
  2: { unfold set_add. rewrite bool_decide_eq_false_2; [reflexivity|].
       rewrite unique_ordered_elem. exact Hfirst. }
  destruct (unique_ordered_fold l2 (unique_ordered l1 ++ [k])) as (rest & Heq & _ & _).
  exists rest. rewrite Heq, <- app_assoc. reflexivity.
Qed.

(** The key that first shows up at position [n] follows right after the
    keys that show up before [n]. *)
Lemma unique_ordered_first (l : list str) (n : nat) (k : str) :
  l !! n = Some k -> k ∉ take n l ->
  exists rest, unique_ordered l = unique_ordered (take n l) ++ k :: rest.
Proof.
  intros Hn Hfirst.
  destruct (unique_ordered_middle (take n l) (drop (S n) l) k Hfirst) as (rest & Heq).
  exists rest. rewrite <- Heq. f_equal. symmetry. apply take_drop_middle, Hn.
Qed.

Lemma final_bib_content_entries (Py : Interpreter) (df : DataFrame)
    (bib_keys : list str) (l : list str) :
  Forall2 (fun key entry => bibtex_entry Py df bib_keys key = Ok entry)
          (filter (fun key => is_ok (bibtex_entry Py df bib_keys key) = true) l)
          (final_bib_content Py df bib_keys l).
Proof.
  unfold final_bib_content. induction l as [|k l IH]; [constructor|].
  rewrite filter_cons. cbn [mbind list_bind].
  destruct (bibtex_entry Py df bib_keys k) as [e|x] eqn:Hk; cbn [is_ok].
  - rewrite decide_True by reflexivity. constructor; assumption.
  - rewrite decide_False by discriminate. exact IH.
Qed.

(** C8, as the code has it: the keys that get an entry are the keys of the
    groups, each once, in the order of their first appearance across the
    sorted groups; the bibliography holds, in that order, the entry of each
    of these keys whose entry can be built, and none for the others. *)
Theorem bibliography_entries (Py : Interpreter) (df : DataFrame)
    (bib_keys : list str) (table : list item) :
  let all := all_ordered_cite_keys table in
  let unique_ordered_keys := unique_ordered all in
  NoDup unique_ordered_keys /\
  (forall key, key ∈ unique_ordered_keys <-> exists x, x ∈ table /\ key ∈ keys x) /\
  (forall n1 n2 k1 k2,
     all !! n1 = Some k1 -> k1 ∉ take n1 all ->
     all !! n2 = Some k2 -> k2 ∉ take n2 all ->
     n1 < n2 ->
     exists i j, i < j /\ unique_ordered_keys !! i = Some k1
                 /\ unique_ordered_keys !! j = Some k2) /\
  Forall2 (fun key entry => bibtex_entry Py df bib_keys key = Ok entry)
          (filter (fun key => is_ok (bibtex_entry Py df bib_keys key) = true)
                  unique_ordered_keys)
          (final_bib_content Py df bib_keys unique_ordered_keys).
Proof.
  cbn zeta. split; [apply unique_ordered_NoDup|]. split; [|split].
  - intros key. rewrite unique_ordered_elem. unfold all_ordered_cite_keys.
    rewrite list_elem_of_bind. split; intros (x & H1 & H2); exists x; auto.
  - intros n1 n2 k1 k2 H1 _ H2 Hfirst2 Hlt.
    destruct (unique_ordered_first _ n2 k2 H2 Hfirst2) as (rest & Heq).
    assert (Hk1 : k1 ∈ unique_ordered (take n2 (all_ordered_cite_keys table))).
    { apply unique_ordered_elem, elem_of_take. exists n1. auto. }
    apply list_elem_of_lookup in Hk1 as (i & Hi).
    exists i, (length (unique_ordered (take n2 (all_ordered_cite_keys table)))).
    pose proof (lookup_lt_Some _ _ _ Hi) as Hlen.
    split; [exact Hlen|]. rewrite Heq. split.
    + rewrite lookup_app_l by exact Hlen. exact Hi.
    + apply list_lookup_middle. reflexivity.
  - apply final_bib_content_entries.
Qed.

(** C8 fails as stated: the only article of [no_year] is cited in the
    table, and the bibliography has no entry for its key, since [int] of
    the empty year raises ValueError. *)
Lemma no_year_no_entry :
  bib_keys cpython_ascii (fun _ => 0%Z) no_year = Ok [lit "doendgold"] /\
  bibtex_entry cpython_ascii no_year [lit "doendgold"] (lit "doendgold")
  = Raise ValueError /\
  analyze_literature cpython_ascii (fun _ => 0%Z) (Some no_year)
  = Completed [] (lit "  \ce{Au} & 1 & \cite{doendgold} \\ \hline")
              {| mono := 1; binary := 0; ternary := 0; other := 0 |}.
Proof. repeat split; reflexivity. Qed.

(** ** The whole run *)

Section Runs.
Context (Py : Interpreter) (h1 h2 : value -> Z).

Lemma row_base_key_hash (df : DataFrame) (row : list value) :
  uses_fallback Py df row = false ->
  row_base_key Py h1 df row = row_base_key Py h2 df row.
Proof.
  unfold uses_fallback, row_base_key, generate_bib_key.
  destruct (normal_key Py _ _ _) as [key|e]; [reflexivity|].
  intros ->. reflexivity.
Qed.

Lemma key_loop_hash (df : DataFrame) (rows : list (list value)) :
  Forall (fun row => uses_fallback Py df row = false) rows ->
  forall seen, key_loop Py h1 df seen rows = key_loop Py h2 df seen rows.
Proof.
  induction 1 as [|row rows Hrow _ IH]; intros seen; cbn [key_loop]; [reflexivity|].
  rewrite (row_base_key_hash df row Hrow).
  destruct (row_base_key Py h2 df row) as [base_key|e]; cbn; [|reflexivity].
  rewrite IH. reflexivity.
Qed.

(** C1, as the code has it: two runs on the same input, whatever the hash
    of each process, produce the same two files as long as no article takes
    its key from the fallback branch. *)
Theorem analyze_literature_same_output (read_csv : option DataFrame) :
  (forall df, read_csv = Some df ->
              Forall (fun row => uses_fallback Py df row = false) (rows df)) ->
  analyze_literature Py h1 read_csv = analyze_literature Py h2 read_csv.
Proof.
  intros H. destruct read_csv as [df|]; [|reflexivity].
  unfold analyze_literature, bib_keys.
  rewrite (key_loop_hash df (rows df) (H df eq_refl)). reflexivity.
Qed.

End Runs.

(** C1 fails as stated: the key of the article of [unreadable_title] is
    the fallback key, and two processes whose hashes of the title differ
    write different files from the same input. *)
Lemma analyze_literature_hash_seed :
  bib_keys cpython_ascii (fun _ => 1%Z) unreadable_title = Ok [lit "ref_1"] /\
  bib_keys cpython_ascii (fun _ => 2%Z) unreadable_title = Ok [lit "ref_2"] /\
  analyze_literature cpython_ascii (fun _ => 1%Z) (Some unreadable_title)
  <> analyze_literature cpython_ascii (fun _ => 2%Z) (Some unreadable_title).
Proof. split; [reflexivity|]. split; [reflexivity|]. vm_compute. discriminate. Qed.

Lemma analyze_literature_same_output_witness :
  (forall df, Some three_alike = Some df ->
              Forall (fun row => uses_fallback cpython_ascii df row = false) (rows df)) /\
  analyze_literature cpython_ascii (fun _ => 1%Z) (Some three_alike)
  = analyze_literature cpython_ascii (fun _ => 2%Z) (Some three_alike).
Proof.
  assert (H : forall df, Some three_alike = Some df ->
              Forall (fun row => uses_fallback cpython_ascii df row = false) (rows df)).
  { intros df [= <-]. repeat constructor. }
  split; [exact H|].
  apply (analyze_literature_same_output cpython_ascii (fun _ => 1%Z) (fun _ => 2%Z)
           (Some three_alike) H).
Defined.

(** C9: on a table without the column Abstract the run stops with the
    KeyError of line 126 and writes nothing. *)
Theorem no_abstract_aborts :
  bib_keys cpython_ascii (fun _ => 0%Z) no_abstract = Ok [lit "doe2021gold"] /\
  analyze_literature cpython_ascii (fun _ => 0%Z) (Some no_abstract) = Aborted KeyError.
Proof. split; reflexivity. Qed.

(** * Further properties *)

(** ** The sanitizer, one pass *)

Section Escaping.
Context (Py : Interpreter).

Lemma replace_app (c : N) (r a b : str) :
  replace c r (a ++ b) = replace c r a ++ replace c r b.
Proof. unfold replace. apply bind_app. Qed.

Lemma replace_all_app (a b : str) : replace_all (a ++ b) = replace_all a ++ replace_all b.
Proof.
  unfold replace_all. revert a b.
  induction replacements as [|[c r] l IH]; intros a b; cbn [foldl]; [reflexivity|].
  rewrite replace_app. apply IH.
Qed.

Lemma replace_all_char (x : N) : replace_all [x] = escape x.
Proof.
  unfold escape, special.
  destruct (N.eqb_spec x 38) as [->|H1]; [reflexivity|].
  destruct (N.eqb_spec x 37) as [->|H2]; [reflexivity|].
  destruct (N.eqb_spec x 36) as [->|H3]; [reflexivity|].
  destruct (N.eqb_spec x 35) as [->|H4]; [reflexivity|].
  destruct (N.eqb_spec x 95) as [->|H5]; [reflexivity|].
  destruct (N.eqb_spec x 123) as [->|H6]; [reflexivity|].
  destruct (N.eqb_spec x 125) as [->|H7]; [reflexivity|].
  apply N.eqb_neq in H1, H2, H3, H4, H5, H6, H7.
  unfold replace_all, replacements, replace. cbn.
  rewrite H1. cbn. rewrite H2. cbn. rewrite H3. cbn. rewrite H4. cbn.
  rewrite H5. cbn. rewrite H6. cbn. rewrite H7. reflexivity.
Qed.

Lemma replace_all_bind (text : str) : replace_all text = text ≫= escape.
Proof.
  induction text as [|x text IH]; [reflexivity|].
  change (x :: text) with ([x] ++ text).
  rewrite replace_all_app, bind_app, IH, replace_all_char. cbn.
  rewrite app_nil_r. reflexivity.
Qed.

Lemma sanitize_text_bind (s : str) :
  sanitize_text Py (VStr s) = encode_ascii_ignore (normalize_NFKD Py s) ≫= escape.
Proof. apply (replace_all_bind (encode_ascii_ignore (normalize_NFKD Py s))). Qed.

(** X1: the seven replacements in a row amount to one pass over the ASCII
    characters of the normalised text, each special character getting one
    backslash: a replacement never touches what an earlier one has put in. *)
Theorem sanitize_text_one_pass (v : value) :
  sanitize_text Py v
  = match v with
    | VStr s => encode_ascii_ignore (normalize_NFKD Py s) ≫= escape
    | _ => []
    end.
Proof. destruct v; try reflexivity. apply sanitize_text_bind. Qed.

Lemma escape_bind_escaped (text : str) (i : nat) (c : N) :
  (text ≫= escape) !! i = Some c -> special c = true ->
  exists j, i = S j /\ (text ≫= escape) !! j = Some 92%N.
Proof.
  revert i. induction text as [|x text IH]; intros i Hi Hc; [discriminate|].
  assert (Hcons : (x :: text) ≫= escape
                  = (if special x then [92%N; x] else [x]) ++ (text ≫= escape))
    by reflexivity.
  rewrite Hcons in Hi |- *. clear Hcons.
  destruct (special x) eqn:Hx.
  - destruct i as [|[|i]]; cbn in Hi |- *.
    + injection Hi as <-. discriminate.
    + exists 0. split; reflexivity.
    + destruct (IH i Hi Hc) as (j & -> & Hj). exists (S (S j)). split; [reflexivity|].
      exact Hj.
  - destruct i as [|i]; cbn in Hi |- *.
    + injection Hi as <-. congruence.
    + destruct (IH i Hi Hc) as (j & -> & Hj). exists (S j). split; [reflexivity|].
      exact Hj.
Qed.

(** X2: no special character is left bare: in the output each of them
    stands right behind a backslash. *)
Theorem sanitize_text_escaped (v : value) (i : nat) (c : N) :
  sanitize_text Py v !! i = Some c -> special c = true ->
  exists j, i = S j /\ sanitize_text Py v !! j = Some 92%N.
Proof.
  destruct v; try discriminate.
  rewrite sanitize_text_bind. apply escape_bind_escaped.
Qed.

End Escaping.

(** ** Decimal numerals *)

Lemma uint_digits (d : Decimal.uint) :
  Forall (fun c => is_digit c = true) (lit (NilEmpty.string_of_uint d)).
Proof. induction d; cbn; constructor; try reflexivity; assumption. Qed.

Lemma digits_value_uint (d : Decimal.uint) :
  forall acc after_digit,
    d <> Decimal.Nil \/ after_digit = true ->
    digits_value acc after_digit (lit (NilEmpty.string_of_uint d))
    = Some (uint_value d acc).
Proof.
  induction d; intros acc b Hb;
    [destruct Hb as [?| ->]; [contradiction|reflexivity]|..];
    cbn -[Z.mul Z.add]; rewrite IHd by (right; reflexivity);
    do 2 f_equal; lia.
Qed.

Lemma of_uint_acc_value (d : Decimal.uint) :
  forall p, Zpos (Pos.of_uint_acc d p) = uint_value d (Zpos p).
Proof.
  induction d; intros p; cbn -[Z.mul Z.add Pos.mul Pos.add]; [reflexivity|..];
    rewrite IHd; f_equal; lia.
Qed.

Lemma of_uint_value (d : Decimal.uint) : Z.of_N (Pos.of_uint d) = uint_value d 0.
Proof.
  induction d; cbn -[Z.mul Z.add]; [reflexivity|exact IHd|..];
    rewrite of_uint_acc_value; reflexivity.
Qed.

Lemma str_of_Z_pos (p : positive) :
  str_of_Z (Zpos p) = lit (NilEmpty.string_of_uint (Pos.to_uint p)).
Proof.
  unfold str_of_Z. cbn. unfold NilZero.string_of_uint.
  pose proof (DecimalPos.Unsigned.to_uint_nonnil p) as H.
  destruct (Pos.to_uint p); [contradiction|reflexivity..].
Qed.

Lemma str_of_Z_neg (p : positive) : str_of_Z (Zneg p) = 45%N :: str_of_Z (Zpos p).
Proof. rewrite str_of_Z_pos. unfold str_of_Z. cbn. unfold NilZero.string_of_uint.
  pose proof (DecimalPos.Unsigned.to_uint_nonnil p) as H.
  destruct (Pos.to_uint p); [contradiction|reflexivity..].
Qed.

Lemma str_of_Z_digits (z : Z) :
  (0 <= z)%Z -> str_of_Z z <> [] /\ Forall (fun c => is_digit c = true) (str_of_Z z).
Proof.
  destruct z as [|p|p]; [intros _|intros _|lia].
  - split; [discriminate|]. repeat constructor.
  - rewrite str_of_Z_pos. split; [|apply uint_digits].
    pose proof (DecimalPos.Unsigned.to_uint_nonnil p) as H.
    destruct (Pos.to_uint p); [contradiction|discriminate..].
Qed.

Lemma digits_value_str_of_Z (z : Z) :
  (0 <= z)%Z -> digits_value 0 false (str_of_Z z) = Some z.
Proof.
  destruct z as [|p|p]; [reflexivity| |lia]. intros _.
  rewrite str_of_Z_pos, digits_value_uint.
  - rewrite <- of_uint_value, DecimalPos.Unsigned.of_to. reflexivity.
  - left. apply DecimalPos.Unsigned.to_uint_nonnil.
Qed.

Lemma str_of_Z_inj (a b : Z) : (0 <= a)%Z -> (0 <= b)%Z -> str_of_Z a = str_of_Z b -> a = b.
Proof.
  intros Ha Hb H. pose proof (digits_value_str_of_Z a Ha) as H1.
  rewrite H, (digits_value_str_of_Z b Hb) in H1. congruence.
Qed.

(** ** The key generator *)

Section KeyGenerator.
Context (Py : Interpreter).

Lemma sanitize_text_chars (v : value) :
  Forall (fun c => is_ascii c = true) (sanitize_text Py v).
Proof.
  destruct v; try constructor. rewrite sanitize_text_bind.
  generalize (encode_ascii_ignore_ascii (normalize_NFKD Py s)).
  generalize (encode_ascii_ignore (normalize_NFKD Py s)) as t.
  induction 1 as [|x t Hx _ IH]; [constructor|].
  change ((x :: t) ≫= escape) with (escape x ++ (t ≫= escape)).
  apply Forall_app. split; [|exact IH].
  unfold escape. destruct (special x); repeat constructor; exact Hx.
Qed.

Lemma split_on_first (s : str) :
  forall piece, exists rest, split_on 44 piece s = (piece ++ before_comma s) :: rest.
Proof.
  induction s as [|c s IH]; intros piece; cbn.
  - exists []. rewrite app_nil_r. reflexivity.
  - destruct (c =? 44)%N.
    + eexists. rewrite app_nil_r. reflexivity.
    + destruct (IH (piece ++ [c])) as (rest & ->). exists rest.
      rewrite <- app_assoc. reflexivity.
Qed.

Lemma before_comma_chars (P : N -> Prop) (s : str) :
  Forall P s -> Forall P (before_comma s).
Proof.
  induction 1 as [|c s Hc _ IH]; cbn; [constructor|].
  destruct (c =? 44)%N; constructor; assumption.
Qed.

Lemma split_ws_chars (P : N -> Prop) (s : str) :
  Forall P s -> forall word, Forall P word -> Forall (Forall P) (split_ws Py word s).
Proof.
  induction 1 as [|c s Hc _ IH]; intros word Hw; cbn.
  - destruct word; [constructor|]. constructor; [exact Hw|constructor].
  - destruct (isspace Py c).
    + destruct word; [apply IH; constructor|].
      constructor; [exact Hw|apply IH; constructor].
    + apply IH. apply Forall_app. split; [exact Hw|]. repeat constructor. exact Hc.
Qed.

Lemma split_ws_blank (s : str) :
  forall word, split_ws Py word s = [] <-> word = [] /\ blank Py s = true.
Proof.
  unfold blank. induction s as [|c s IH]; intros word; cbn.
  - destruct word; split; try tauto; try discriminate. intros [? _]. discriminate.
  - destruct (isspace Py c); cbn.
    + destruct word; [apply IH|]. split; [discriminate|]. intros [? _]. discriminate.
    + rewrite IH. split; [|intros [_ ?]; discriminate].
      intros [H _]. destruct word; discriminate.
Qed.

Lemma lower_ascii (s : str) :
  Forall (fun c => is_ascii c = true) s -> lower Py s = ascii_lower <$> s.
Proof.
  intros H. unfold lower.
  replace (forallb is_ascii s) with true; [reflexivity|].
  symmetry. apply forallb_forall. intros c Hc. rewrite Forall_forall in H.
  apply H. apply list_elem_of_In. exact Hc.
Qed.

Lemma ascii_lower_key_char (c : N) :
  is_ascii c = true -> isalnum Py (ascii_lower c) = true ->
  key_char (ascii_lower c) = true.
Proof.
  intros Hc. unfold ascii_lower.
  destruct ((65 <=? c) && (c <=? 90))%N eqn:Hu.
  - intros _. apply andb_true_iff in Hu as [H1 H2]. apply N.leb_le in H1, H2.
    unfold key_char. rewrite !orb_true_iff, !andb_true_iff, !N.leb_le, !N.eqb_eq. lia.
  - unfold isalnum. rewrite Hc. unfold ascii_isalnum, key_char.
    apply andb_false_iff in Hu. rewrite !N.leb_gt in Hu.
    rewrite !orb_true_iff, !andb_true_iff, !N.leb_le, !N.eqb_eq. lia.
Qed.

Lemma clean_chars (s : str) :
  Forall (fun c => is_ascii c = true) s ->
  Forall (fun c => key_char c = true) (filter (fun c => isalnum Py c = true) (lower Py s)).
Proof.
  intros H. rewrite (lower_ascii s H). apply Forall_forall. intros x Hx.
  apply list_elem_of_filter in Hx as [Hal Hx].
  apply list_elem_of_fmap in Hx as (c & -> & Hc).
  rewrite Forall_forall in H. apply ascii_lower_key_char; [apply H, Hc|exact Hal].
Qed.

(** The author part: an IndexError when nothing but whitespace stands
    before the first comma, else a string of key characters. *)
Lemma clean_author_of_cases (s : str) :
  Forall (fun c => is_ascii c = true) s ->
  (blank Py (before_comma s) = true /\ clean_author_of Py s = Raise IndexError)
  \/ (blank Py (before_comma s) = false /\
      exists a, clean_author_of Py s = Ok a /\ Forall (fun c => key_char c = true) a).
Proof.
  intros Hs. unfold clean_author_of.
  destruct (split_on_first s []) as (rest & ->). cbn.
  pose proof (split_ws_chars _ _ (before_comma_chars _ s Hs) [] (Forall_nil_2 _)) as Hw.
  pose proof (split_ws_blank (before_comma s) []) as Hb.
  unfold item_last. destruct (last (split_ws Py [] (before_comma s))) as [w|] eqn:Hl.
  - right. split.
    + destruct (blank Py (before_comma s)); [|reflexivity].
      destruct Hb as [_ Hb]. rewrite Hb in Hl by auto. discriminate.
    + eexists. split; [reflexivity|]. apply clean_chars.
      apply last_Some_elem_of in Hl. rewrite Forall_forall in Hw. apply Hw, Hl.
  - left. split; [|reflexivity]. apply last_None in Hl. apply Hb in Hl. tauto.
Qed.

Lemma clean_title_of_cases (s : str) :
  Forall (fun c => is_ascii c = true) s ->
  (blank Py s = true /\ clean_title_of Py s = Raise IndexError)
  \/ (blank Py s = false /\
      exists t, clean_title_of Py s = Ok t /\ Forall (fun c => key_char c = true) t).
Proof.
  intros Hs. unfold clean_title_of.
  pose proof (split_ws_chars _ _ Hs [] (Forall_nil_2 _)) as Hw.
  pose proof (split_ws_blank s []) as Hb.
  destruct (split_ws Py [] s) as [|w ws] eqn:Hsplit; cbn.
  - left. split; [|reflexivity]. apply Hb. reflexivity.
  - right. split.
    + destruct (blank Py s); [|reflexivity]. destruct Hb as [_ Hb].
      discriminate Hb. auto.
    + eexists. split; [reflexivity|]. apply clean_chars.
      apply Forall_cons in Hw as [Hw _]. exact Hw.
Qed.

Lemma str_of_Z_key_chars (z : Z) :
  str_of_Z z <> [] /\ Forall (fun c => key_char c = true) (str_of_Z z).
Proof.
  assert (Hd : forall c, is_digit c = true -> key_char c = true).
  { intros c. unfold is_digit, key_char. intros ->. rewrite orb_true_r. reflexivity. }
  destruct z as [|p|p].
  - split; [discriminate|]. repeat constructor.
  - destruct (str_of_Z_digits (Zpos p)) as [Hne Hf]; [lia|]. split; [exact Hne|].
    eapply Forall_impl; [exact Hf|exact Hd].
  - rewrite str_of_Z_neg. split; [discriminate|]. constructor; [reflexivity|].
    destruct (str_of_Z_digits (Zpos p)) as [_ Hf]; [lia|].
    eapply Forall_impl; [exact Hf|exact Hd].
Qed.

(** The year part: a non-empty string of key characters, or the exception
    of [int]. *)
Lemma year_str_of_cases (year : value) :
  match year_str_of Py year with
  | Ok ys => ys <> [] /\ Forall (fun c => key_char c = true) ys
  | Raise e => notna year = true /\ py_int Py year = Raise e /\
               (e = ValueError \/ (e = OverflowError /\ exists neg, year = VInf neg))
  end.
Proof.
  unfold year_str_of. destruct year; cbn; try (split; [discriminate|repeat constructor]);
    try apply str_of_Z_key_chars.
  - repeat split; try reflexivity. right. split; [reflexivity|]. eauto.
  - destruct (int_of_str Py s); cbn; [apply str_of_Z_key_chars|].
    repeat split; try reflexivity. left. reflexivity.
Qed.

Lemma fallback_key_chars (hash : value -> Z) (title : value) :
  fallback_key hash title <> [] /\
  Forall (fun c => key_char c = true) (fallback_key hash title).
Proof.
  unfold fallback_key. split; [discriminate|]. apply Forall_app. split.
  - repeat constructor.
  - destruct (str_of_Z_digits (Z.abs (hash title))) as [_ Hf]; [lia|].
    eapply Forall_impl; [exact Hf|]. intros c. unfold is_digit, key_char.
    intros ->. rewrite orb_true_r. reflexivity.
Qed.

Lemma generate_bib_key_cases (hash : value -> Z) (authors year title : value) :
  match generate_bib_key Py hash authors year title with
  | Ok key => key <> [] /\ Forall (fun c => key_char c = true) key
  | Raise e => e = OverflowError /\ exists neg, year = VInf neg
  end.
Proof.
  unfold generate_bib_key, normal_key.
  destruct (clean_author_of_cases (sanitize_text Py (VStr (py_str authors)))
              (sanitize_text_chars _)) as [[_ ->]|(_ & a & -> & Ha)];
    [apply fallback_key_chars|].
  destruct (clean_title_of_cases (sanitize_text Py (VStr (py_str title)))
              (sanitize_text_chars _)) as [[_ ->]|(_ & t & -> & Ht)];
    [apply fallback_key_chars|].
  cbn. pose proof (year_str_of_cases year) as Hy.
  destruct (year_str_of Py year) as [ys|e]; cbn.
  - destruct Hy as [Hne Hys]. split.
    + intros H. apply app_eq_nil in H as [_ H]. apply app_eq_nil in H as [H _].
      contradiction.
    + rewrite !Forall_app. auto.
  - destruct Hy as (_ & _ & [->|[-> Hinf]]); cbn; [apply fallback_key_chars|auto].
Qed.

(** X3: a call of [generate_bib_key] returns a non-empty key made of
    lower-case letters, digits, [-] and [_] only, whatever the author, year
    and title are; the one exception it lets through is the OverflowError
    of an infinite year. *)
Theorem generate_bib_key_outcome (hash : value -> Z) (authors year title : value) :
  match generate_bib_key Py hash authors year title with
  | Ok key => key <> [] /\ Forall (fun c => key_char c = true) key
  | Raise e => e = OverflowError /\ exists neg, year = VInf neg
  end.
Proof. apply generate_bib_key_cases. Qed.

End KeyGenerator.

(** ** The uniqueness pass, further *)

Section KeyLoop.
Context (Py : Interpreter) (hash : value -> Z) (df : DataFrame).

Lemma str_of_nat_digits (n : nat) :
  str_of_nat n <> [] /\ Forall (fun c => key_char c = true) (str_of_nat n).
Proof. apply str_of_Z_key_chars. Qed.

Lemma key_loop_cases (rows : list (list value)) :
  forall seen,
    match key_loop Py hash df seen rows with
    | Ok keys => length keys = length rows /\
                 Forall (fun key => key <> [] /\ Forall (fun c => key_char c = true) key)
                        keys
    | Raise e => e = OverflowError /\
                 exists row neg, row ∈ rows /\ row_get df row "Year" VNone = VInf neg
    end.
Proof.
  induction rows as [|row rows IH]; intros seen; cbn [key_loop].
  - split; [reflexivity|constructor].
  - unfold row_base_key at 1.
    pose proof (generate_bib_key_cases Py hash (row_get df row "Authors" VNone)
                  (row_get df row "Year" VNone) (row_get df row "Title" VNone)) as Hg.
    destruct (generate_bib_key Py hash _ _ _) as [base_key|e]; cbn.
    + set (count := default 0 (seen !! base_key)).
      specialize (IH (<[base_key := count + 1]> seen)).
      destruct (key_loop Py hash df _ rows) as [keys|e]; cbn.
      * destruct IH as [Hlen Hkeys]. split; [cbn; lia|]. constructor; [|exact Hkeys].
        destruct Hg as [Hne Hchars]. destruct (count =? 0); [auto|]. split.
        -- intros H. apply app_eq_nil in H as [H _]. contradiction.
        -- apply Forall_app. split; [exact Hchars|apply str_of_nat_digits].
      * destruct IH as (-> & r & neg & Hr & Hinf). split; [reflexivity|].
        exists r, neg. split; [right; exact Hr|exact Hinf].
    + destruct Hg as (-> & neg & Hinf). split; [reflexivity|].
      exists row, neg. split; [left|exact Hinf].
Qed.

(** X4: the key loop gives every article one non-empty key made of
    lower-case letters, digits, [-] and [_] only, so that no key holds a
    comma, a brace, a backslash or a blank; it stops only with the
    OverflowError of an article whose year is infinite. *)
Theorem bib_keys_outcome :
  match bib_keys Py hash df with
  | Ok keys => length keys = length (rows df) /\
               Forall (fun key => key <> [] /\ Forall (fun c => key_char c = true) key)
                      keys
  | Raise e => e = OverflowError /\
               exists row neg, row ∈ rows df /\ row_get df row "Year" VNone = VInf neg
  end.
Proof. apply key_loop_cases. Qed.

(** X5: an article takes its key from the fallback branch in exactly three
    cases: nothing but whitespace stands before the first comma of the
    sanitized author text, the sanitized title is nothing but whitespace,
    or the year is present and [int] rejects it with ValueError. *)
Theorem uses_fallback_cases (row : list value) :
  uses_fallback Py df row = true <->
  blank Py (before_comma
              (sanitize_text Py (VStr (py_str (row_get df row "Authors" VNone))))) = true
  \/ blank Py (sanitize_text Py (VStr (py_str (row_get df row "Title" VNone)))) = true
  \/ (notna (row_get df row "Year" VNone) = true /\
      py_int Py (row_get df row "Year" VNone) = Raise ValueError).
Proof.
  unfold uses_fallback, normal_key.
  destruct (clean_author_of_cases Py
              (sanitize_text Py (VStr (py_str (row_get df row "Authors" VNone))))
              (sanitize_text_chars Py _)) as [[Ha ->]|(Ha & a & -> & _)].
  { cbn. split; auto. }
  destruct (clean_title_of_cases Py
              (sanitize_text Py (VStr (py_str (row_get df row "Title" VNone))))
              (sanitize_text_chars Py _)) as [[Ht ->]|(Ht & t & -> & _)].
  { cbn. split; auto. }
  rewrite Ha, Ht. cbn [mbind result_bind].
  pose proof (year_str_of_cases Py (row_get df row "Year" VNone)) as Hy.
  destruct (year_str_of Py (row_get df row "Year" VNone)) as [ys|e] eqn:Hys;
    cbn [mbind result_bind caught].
  - split; [discriminate|]. intros [?|[?|[Hn Hi]]]; try discriminate.
    unfold year_str_of in Hys. rewrite Hn, Hi in Hys. discriminate.
  - destruct Hy as (Hn & Hi & [->|[-> _]]); cbn.
    + split; auto.
    + split; [discriminate|]. intros [?|[?|[_ Hi']]]; try discriminate. congruence.
Qed.

Lemma nth_key_inj (b : str) (m n : nat) :
  0 < m -> 0 < n -> nth_key b m = nth_key b n -> m = n.
Proof.
  unfold nth_key. intros Hm Hn.
  destruct (Nat.eqb_spec m 1) as [->|Hm1], (Nat.eqb_spec n 1) as [->|Hn1];
    [reflexivity| | |].
  - intros H. exfalso. apply (f_equal length) in H. rewrite length_app in H.
    destruct (str_of_nat_digits n) as [Hne _]. destruct (str_of_nat n); [contradiction|].
    cbn in H. lia.
  - intros H. exfalso. apply (f_equal length) in H. rewrite length_app in H.
    destruct (str_of_nat_digits m) as [Hne _]. destruct (str_of_nat m); [contradiction|].
    cbn in H. lia.
  - intros H. apply app_inv_head in H. unfold str_of_nat in H.
    apply str_of_Z_inj in H; lia.
Qed.

Lemma seen_before_grows (bases : list str) (i j : nat) (b : str) :
  i < j -> bases !! i = Some b -> seen_before bases i b < seen_before bases j b.
Proof.
  intros Hij Hi. unfold seen_before.
  assert (Hlen : i < length bases) by (apply lookup_lt_Some in Hi; exact Hi).
  rewrite <- (take_drop (S i) (take j bases)), take_take, filter_app, length_app.
  replace (S i `min` j) with (S i) by lia.
  rewrite (take_S_r _ _ _ Hi), filter_app, length_app. cbn.
  rewrite decide_True by reflexivity. cbn. lia.
Qed.

(** X6: two articles with the same base key never end up with the same
    final key. *)
Theorem same_base_distinct_keys (bases keys : list str) (i j : nat) (b ki kj : str) :
  base_keys Py hash df = Ok bases ->
  bib_keys Py hash df = Ok keys ->
  i <> j ->
  bases !! i = Some b -> bases !! j = Some b ->
  keys !! i = Some ki -> keys !! j = Some kj ->
  ki <> kj.
Proof.
  intros Hbases Hkeys Hij Hi Hj Hki Hkj.
  destruct (key_loop_tally Py hash df (rows df) ∅ [] bases) as (keys' & Hk & _ & Hnth).
  { intros x. rewrite lookup_empty. reflexivity. }
  { exact Hbases. }
  unfold bib_keys in Hkeys. rewrite Hk in Hkeys. injection Hkeys as ->.
  pose proof (Hnth i b Hi) as Hi'. pose proof (Hnth j b Hj) as Hj'. cbn in Hi', Hj'.
  rewrite Hki in Hi'. rewrite Hkj in Hj'. injection Hi' as ->. injection Hj' as ->.
  intros H. apply nth_key_inj in H; [|lia..].
  fold (seen_before bases i b) in H. fold (seen_before bases j b) in H.
  destruct (Nat.lt_trichotomy i j) as [Hlt|[?|Hlt]]; [|contradiction|].
  - pose proof (seen_before_grows bases i j b Hlt Hi). lia.
  - pose proof (seen_before_grows bases j i b Hlt Hj). lia.
Qed.

End KeyLoop.

(** ** A year given as text *)

Section TextYear.
Context (Py : Interpreter).

Lemma is_digit_props (c : N) :
  is_digit c = true ->
  is_ascii c = true /\ c_isspace c = false /\ c <> 45%N /\ c <> 43%N.
Proof.
  unfold is_digit, is_ascii, c_isspace. rewrite andb_true_iff, !N.leb_le. intros [H1 H2].
  split; [apply N.ltb_lt; lia|]. split; [|lia].
  apply not_true_iff_false. rewrite orb_true_iff, andb_true_iff, !N.leb_le, N.eqb_eq. lia.
Qed.

Lemma strip_left_id (s : str) :
  Forall (fun c => c_isspace c = false) s -> strip_left s = s.
Proof. destruct 1 as [|c s Hc _]; cbn; [reflexivity|]. rewrite Hc. reflexivity. Qed.

Lemma strip_id (s : str) : Forall (fun c => c_isspace c = false) s -> strip s = s.
Proof.
  intros H. unfold strip. rewrite (strip_left_id s H), strip_left_id.
  - apply reverse_involutive.
  - apply Forall_reverse, H.
Qed.

Lemma filter_digits_id (s : str) :
  Forall (fun c => is_digit c = true) s -> filter (fun c => is_digit c = true) s = s.
Proof.
  induction 1 as [|c s Hc _ IH]; [reflexivity|].
  rewrite filter_cons_True by exact Hc. rewrite IH. reflexivity.
Qed.

Lemma ascii_int_digits (s : str) (z : Z) :
  s <> [] -> Forall (fun c => is_digit c = true) s ->
  within_digit_limit Py s = true ->
  digits_value 0 false s = Some z ->
  ascii_int Py s = Some z /\ ascii_int Py (45%N :: s) = Some (- z)%Z.
Proof.
  intros Hne Hd Hlim Hval.
  assert (Hsp : Forall (fun c => c_isspace c = false) s).
  { eapply Forall_impl; [exact Hd|]. intros c Hc. apply is_digit_props, Hc. }
  unfold ascii_int. rewrite (strip_id s Hsp), (strip_id (45%N :: s)).
  2: { constructor; [reflexivity|exact Hsp]. }
  rewrite Hlim, Hval. split; [|reflexivity].
  clear Hsp. destruct s as [|c s']; [contradiction|]. apply Forall_cons in Hd as [Hc _].
  destruct (is_digit_props c Hc) as (_ & _ & H45 & H43).
  destruct c as [|p]; [|do 7 (try destruct p as [p|p|])]; try congruence;
    lazy beta match zeta; rewrite Hlim, Hval; reflexivity.
Qed.

Lemma digits_ascii (s : str) :
  Forall (fun c => is_digit c = true) s -> forallb is_ascii s = true.
Proof.
  intros Hs. apply forallb_forall. intros c Hc. rewrite Forall_forall in Hs.
  apply is_digit_props, Hs, list_elem_of_In, Hc.
Qed.

Lemma int_of_str_nonneg (z : Z) :
  (0 <= z)%Z -> within_digit_limit Py (str_of_Z z) = true ->
  int_of_str Py (str_of_Z z) = Some z /\
  int_of_str Py (45%N :: str_of_Z z) = Some (- z)%Z.
Proof.
  intros Hz Hlim. destruct (str_of_Z_digits z Hz) as [Hne Hd].
  pose proof (digits_value_str_of_Z z Hz) as Hval.
  destruct (ascii_int_digits _ _ Hne Hd Hlim Hval) as [Hpos Hneg].
  unfold int_of_str. cbn [forallb]. rewrite (digits_ascii _ Hd). auto.
Qed.

Lemma int_of_str_str_of_Z (z : Z) :
  within_digit_limit Py (str_of_Z (Z.abs z)) = true ->
  int_of_str Py (str_of_Z z) = Some z.
Proof.
  destruct z as [|p|p]; intros Hlim.
  - apply (int_of_str_nonneg 0); [lia|exact Hlim].
  - apply (int_of_str_nonneg (Zpos p)); [lia|exact Hlim].
  - rewrite str_of_Z_neg. apply (int_of_str_nonneg (Zpos p)); [lia|exact Hlim].
Qed.

(** X7: a year that reaches the key generator as the decimal text of an
    integer, as it does when the Year column is read as text, gives the
    same key as the integer itself, as long as the integer has no more
    digits than the interpreter's limit. *)
Theorem generate_bib_key_text_integer (hash : value -> Z)
    (authors title : value) (z : Z) :
  within_digit_limit Py (str_of_Z (Z.abs z)) = true ->
  generate_bib_key Py hash authors (VStr (str_of_Z z)) title
  = generate_bib_key Py hash authors (VInt z) title.
Proof.
  intros Hlim. unfold generate_bib_key, normal_key, year_str_of. cbn [notna py_int].
  rewrite (int_of_str_str_of_Z z Hlim). reflexivity.
Qed.

End TextYear.

(** ** The detection, further *)

Section Detection.
Context (Py : Interpreter).

Lemma ascii_lower_cases (x y : N) :
  ascii_lower x = ascii_lower y ->
  x = y \/ ((65 <= x <= 90)%N /\ y = (x + 32)%N) \/ ((65 <= y <= 90)%N /\ x = (y + 32)%N).
Proof.
  unfold ascii_lower.
  destruct (N.leb_spec 65 x), (N.leb_spec x 90), (N.leb_spec 65 y), (N.leb_spec y 90);
    cbn; lia.
Qed.

Lemma letter_is_word (x : N) :
  (65 <= x <= 90)%N -> is_word Py x = true /\ is_word Py (x + 32) = true.
Proof.
  intros H. unfold is_word, isalnum, is_ascii, ascii_isalnum.
  replace (x <? 128)%N with true by (symmetry; apply N.ltb_lt; lia).
  replace (x + 32 <? 128)%N with true by (symmetry; apply N.ltb_lt; lia).
  rewrite !orb_true_iff, !andb_true_iff, !N.leb_le. lia.
Qed.

Lemma is_word_case (x y : N) :
  ascii_lower x = ascii_lower y -> is_word Py x = is_word Py y.
Proof.
  intros [->|[[H ->]|[H ->]]]%ascii_lower_cases; [reflexivity|..];
    destruct (letter_is_word _ H); congruence.
Qed.

Lemma ignorecase_eq_case (p x y : N) :
  is_ascii p = true -> ascii_lower x = ascii_lower y ->
  ignorecase_eq Py p x = ignorecase_eq Py p y.
Proof.
  intros Hp Hxy. unfold ignorecase_eq. rewrite Hp. cbn.
  destruct (ascii_lower_cases x y Hxy) as [->|[[H ->]|[H ->]]]; [reflexivity|..].
  - replace (is_ascii x) with true by (symmetry; apply N.ltb_lt; lia).
    replace (is_ascii (x + 32)) with true by (symmetry; apply N.ltb_lt; lia).
    rewrite Hxy. reflexivity.
  - replace (is_ascii y) with true by (symmetry; apply N.ltb_lt; lia).
    replace (is_ascii (y + 32)) with true by (symmetry; apply N.ltb_lt; lia).
    rewrite Hxy. reflexivity.
Qed.

Lemma word_at_case (a b : str) (i : nat) :
  same_up_to_case a b ->
  from_option (is_word Py) false (a !! i) = from_option (is_word Py) false (b !! i).
Proof.
  intros H. destruct (a !! i) as [x|] eqn:Ha.
  - destruct (Forall2_lookup_l _ _ _ _ _ H Ha) as (y & -> & Hxy). cbn.
    apply is_word_case, Hxy.
  - apply lookup_ge_None in Ha. rewrite (Forall2_length _ _ _ H) in Ha.
    apply lookup_ge_None in Ha. rewrite Ha. reflexivity.
Qed.

Lemma at_boundary_case (a b : str) (i : nat) :
  same_up_to_case a b -> at_boundary Py a i = at_boundary Py b i.
Proof.
  intros H. unfold at_boundary. rewrite (word_at_case a b i H).
  destruct i as [|j]; [reflexivity|]. rewrite (word_at_case a b j H). reflexivity.
Qed.

Lemma match_literal_case (v : str) :
  Forall (fun p => is_ascii p = true) v ->
  forall a b, same_up_to_case a b -> match_literal Py v a = match_literal Py v b.
Proof.
  induction 1 as [|p v Hp _ IH]; intros a b Hab; [reflexivity|].
  destruct Hab as [|x y a b Hxy Hab]; cbn; [reflexivity|].
  rewrite (ignorecase_eq_case p x y Hp Hxy), (IH a b Hab). reflexivity.
Qed.

Lemma search_case (v a b : str) :
  Forall (fun p => is_ascii p = true) v -> same_up_to_case a b ->
  search Py v a = search Py v b.
Proof.
  intros Hv Hab. unfold search. rewrite (Forall2_length _ _ _ Hab).
  induction (seq 0 (S (length b))) as [|i l IH]; [reflexivity|].
  cbn [existsb]. rewrite IH. f_equal. unfold match_at.
  rewrite !(at_boundary_case a b _ Hab).
  rewrite (match_literal_case v Hv (drop i a) (drop i b)); [reflexivity|].
  apply Forall2_drop, Hab.
Qed.

Lemma NANOPARTICLE_MAP_ascii :
  Forall (fun nv => Forall (Forall (fun p => is_ascii p = true)) nv.2) NANOPARTICLE_MAP.
Proof. unfold NANOPARTICLE_MAP. repeat constructor. Qed.

(** X8: the detected set does not depend on the case of the ASCII letters
    of the text. *)
Theorem nanoparticles_found_case (a b : str) :
  same_up_to_case a b -> nanoparticles_found Py a = nanoparticles_found Py b.
Proof.
  intros Hab. unfold nanoparticles_found. generalize (@nil str) as found.
  induction NANOPARTICLE_MAP_ascii as [|[n vs] m Hvs _ IH]; intros found;
    cbn [foldl]; [reflexivity|].
  cbn in Hvs.
  replace (existsb (fun v => search Py v a) vs) with (existsb (fun v => search Py v b) vs).
  - apply IH.
  - induction Hvs as [|v vs Hv _ IHv]; [reflexivity|]. cbn [existsb].
    rewrite IHv, (search_case v a b Hv Hab). reflexivity.
Qed.




End Detection.

(** ** The groups, further *)

Lemma group_of_append (c0 c : list str) (b : str) (d : list (list str * list str)) :
  group_of (dict_append c0 b d) c
  = group_of d c ++ (if bool_decide (c0 = c) then [b] else []).
Proof.
  induction d as [|[k ks] d IH]; cbn.
  - destruct (bool_decide (c0 = c)); reflexivity.
  - destruct (decide (k = c0)) as [->|Hk].
    + rewrite bool_decide_eq_true_2 by reflexivity. cbn.
      destruct (bool_decide (c0 = c)); [reflexivity|symmetry; apply app_nil_r].
    + rewrite (bool_decide_eq_false_2 (k = c0)) by exact Hk. cbn.
      destruct (decide (k = c)) as [->|Hc].
      * rewrite bool_decide_eq_true_2 by reflexivity.
        rewrite (bool_decide_eq_false_2 (c0 = c)) by congruence. symmetry. apply app_nil_r.
      * rewrite (bool_decide_eq_false_2 (k = c)) by exact Hc. exact IH.
Qed.

Lemma group_of_fold (c : list str) (articles : list (list str * str)) :
  forall st,
    group_of (foldl (fun st '(found, bib_key) => group_step st found bib_key)
                    st articles).1 c
    = group_of st.1 c ++ members c articles.
Proof.
  unfold members.
  induction articles as [|[f b] articles IH]; intros st; cbn [foldl].
  - cbn. rewrite app_nil_r. reflexivity.
  - rewrite IH, filter_cons. unfold group_step. cbn [fst snd].
    destruct f as [|x f]; cbn [length Nat.ltb Nat.leb].
    + rewrite decide_False by (intros [? _]; congruence). reflexivity.
    + cbn [fst]. rewrite group_of_append, <- app_assoc. f_equal.
      destruct (decide (combo_key (x :: f) = c)) as [Hc|Hc].
      * rewrite bool_decide_eq_true_2 by exact Hc.
        rewrite decide_True by (split; [discriminate|exact Hc]). reflexivity.
      * rewrite bool_decide_eq_false_2 by exact Hc.
        rewrite decide_False by tauto. reflexivity.
Qed.

Lemma group_of_elem (d : list (list str * list str)) (c ks : list str) :
  NoDup d.*1 -> ((c, ks) ∈ d <-> c ∈ d.*1 /\ group_of d c = ks).
Proof.
  induction d as [|[k ks'] d IH]; cbn; intros Hnd.
  - split; [inversion 1|]. intros [H _]. inversion H.
  - apply NoDup_cons in Hnd as [Hk Hnd]. rewrite !elem_of_cons, (IH Hnd).
    destruct (decide (k = c)) as [->|Hkc].
    + rewrite bool_decide_eq_true_2 by reflexivity. split.
      * intros [[= ->]|[Hc _]]; [auto|contradiction].
      * intros [_ ->]. auto.
    + rewrite (bool_decide_eq_false_2 (k = c)) by exact Hkc. split.
      * intros [[= ? ?]|[? ?]]; [congruence|auto].
      * intros [[?|?] ?]; [congruence|auto].
Qed.

Lemma dict_append_nonempty (c : list str) (b : str) (d : list (list str * list str)) :
  Forall (fun g => g.2 <> []) d -> Forall (fun g => g.2 <> []) (dict_append c b d).
Proof.
  induction 1 as [|[k ks] d Hg Hd IH]; cbn.
  - repeat constructor. discriminate.
  - case_bool_decide.
    + constructor; [|exact Hd]. cbn.
      intros Hnil. apply app_eq_nil in Hnil as [_ Hnil]. discriminate.
    + constructor; [exact Hg|exact IH].
Qed.

Lemma group_loop_nonempty (articles : list (list str * str)) :
  forall st,
    Forall (fun g => g.2 <> []) st.1 ->
    Forall (fun g => g.2 <> [])
      (foldl (fun st '(found, bib_key) => group_step st found bib_key) st articles).1.
Proof.
  induction articles as [|[f b] articles IH]; intros st Hst; cbn [foldl]; [exact Hst|].
  apply IH. unfold group_step. destruct (0 <? length f); [|exact Hst].
  cbn. apply dict_append_nonempty, Hst.
Qed.

Lemma group_of_absent (d : list (list str * list str)) (c : list str) :
  c ∉ d.*1 -> group_of d c = [].
Proof.
  induction d as [|[k ks] d IH]; cbn; intros H; [reflexivity|].
  rewrite bool_decide_eq_false_2.
  - apply IH. intros Hc. apply H. right. exact Hc.
  - intros ->. apply H. left.
Qed.

Lemma group_loop_entries (articles : list (list str * str)) :
  NoDup (group_loop articles).1.*1 /\
  forall c keys,
    (c, keys) ∈ (group_loop articles).1 <-> keys = members c articles /\ keys <> [].
Proof.
  unfold group_loop.
  set (init := ([], {| mono := 0; binary := 0; ternary := 0; other := 0 |})
       : list (list str * list str) * counts).
  destruct (group_loop_fold articles init) as (Hnd & _ & _). cbn zeta in Hnd.
  specialize (Hnd ltac:(constructor)).
  pose proof (group_loop_nonempty articles init ltac:(constructor)) as Hne.
  split; [exact Hnd|]. intros c ks. rewrite (group_of_elem _ c ks Hnd).
  rewrite (group_of_fold c articles init). cbn [group_of init fst app].
  split.
  - intros [Hc <-]. split; [reflexivity|].
    apply list_elem_of_fmap in Hc as ([c' ks'] & -> & Hin).
    rewrite Forall_forall in Hne. specialize (Hne _ Hin). cbn in Hne |- *.
    apply (group_of_elem _ c' ks' Hnd) in Hin as [_ Hg].
    rewrite (group_of_fold c' articles init) in Hg. cbn [group_of init fst app] in Hg.
    rewrite Hg. exact Hne.
  - intros [-> Hne']. split; [|reflexivity].
    destruct (decide (c ∈ (foldl (fun st '(found, bib_key) => group_step st found bib_key)
                              init articles).1.*1)) as [Hc|Hc]; [exact Hc|].
    apply group_of_absent in Hc. rewrite (group_of_fold c articles init) in Hc.
    cbn [group_of init fst app] in Hc. contradiction.
Qed.

(** X10: the dict of groups has one entry per combination that occurs,
    and the entry of a combination holds the citation keys of exactly the
    articles with that combination, in input order; an article in which
    nothing was found is in no group. *)
Theorem group_loop_members (articles : list (list str * str)) :
  let combination_keys := (group_loop articles).1 in
  NoDup combination_keys.*1 /\
  forall c keys,
    (c, keys) ∈ combination_keys <-> keys = members c articles /\ keys <> [].
Proof. apply group_loop_entries. Qed.

Lemma count_up_fold (articles : list (list str * str)) :
  forall st,
    let st' := foldl (fun st '(found, bib_key) => group_step st found bib_key)
                     st articles in
    mono st'.2 = mono st.2 + with_materials 1 articles /\
    binary st'.2 = binary st.2 + with_materials 2 articles /\
    ternary st'.2 = ternary st.2 + with_materials 3 articles /\
    other st'.2 = other st.2 + with_four_or_more articles.
Proof.
  unfold with_materials, with_four_or_more.
  induction articles as [|[f b] articles IH]; intros st; cbn zeta; cbn [foldl].
  - cbn. lia.
  - specialize (IH (group_step st f b)). cbn zeta in IH.
    destruct IH as (H1 & H2 & H3 & H4). rewrite H1, H2, H3, H4. rewrite !filter_cons.
    clear H1 H2 H3 H4. unfold group_step.
    destruct f as [|x1 [|x2 [|x3 [|x4 f]]]];
      cbn [fst snd length Nat.ltb Nat.leb count_up mono binary ternary other];
      repeat case_decide; try lia; cbn [length]; lia.
Qed.

(** X11: the four tallies of the summary count the articles with exactly
    one, exactly two, exactly three, and four or more detected materials;
    an article with none is counted nowhere. *)
Theorem group_loop_counts (articles : list (list str * str)) :
  let article_counts := (group_loop articles).2 in
  mono article_counts = with_materials 1 articles /\
  binary article_counts = with_materials 2 articles /\
  ternary article_counts = with_materials 3 articles /\
  other article_counts = with_four_or_more articles.
Proof.
  cbn zeta. unfold group_loop.
  destruct (count_up_fold articles
              ([], {| mono := 0; binary := 0; ternary := 0; other := 0 |}))
    as (H1 & H2 & H3 & H4). cbn zeta in *. cbn in H1, H2, H3, H4. auto.
Qed.

Lemma dict_append_cites (c : list str) (b : str) (d : list (list str * list str)) :
  dict_append c b d ≫= snd ≡ₚ b :: (d ≫= snd).
Proof.
  induction d as [|[k ks] d IH]; cbn; [reflexivity|].
  case_bool_decide; cbn.
  - rewrite <- app_assoc. cbn. symmetry. apply Permutation_middle.
  - rewrite IH. symmetry. apply Permutation_middle.
Qed.

Lemma group_loop_cites (articles : list (list str * str)) :
  forall st,
    (foldl (fun st '(found, bib_key) => group_step st found bib_key) st articles).1
      ≫= snd
    ≡ₚ (st.1 ≫= snd) ++ (classified articles).*2.
Proof.
  unfold classified.
  induction articles as [|[f b] articles IH]; intros st; cbn [foldl].
  - cbn. rewrite app_nil_r. reflexivity.
  - rewrite IH, filter_cons. unfold group_step. cbn [fst snd].
    destruct f as [|x f]; cbn [length Nat.ltb Nat.leb].
    + rewrite decide_False by congruence. reflexivity.
    + rewrite decide_True by discriminate. cbn [fst fmap list_fmap snd].
      rewrite dict_append_cites. apply Permutation_middle.
Qed.

Lemma table_data_rows (articles : list (list str * str)) :
  Forall (fun x => freq x = length (keys x) /\
                   keys x <> [] /\
                   keys x = members (combo x) articles /\
                   combo x <> [] /\
                   StronglySorted (in_order id str_ltb) (combo x))
         (table_data (group_loop articles).1).
Proof.
  apply Forall_forall. intros x Hx. unfold table_data in Hx.
  rewrite py_sorted_perm in Hx. apply list_elem_of_fmap in Hx as ([c ks] & -> & Hin).
  apply (proj2 (group_loop_entries articles)) in Hin as [-> Hne]. cbn.
  split; [reflexivity|]. split; [exact Hne|]. split; [reflexivity|].
  unfold members in Hne.
  destruct (filter _ articles) as [|[f b] l] eqn:Hf; [contradiction|].
  assert (Hin : (f, b) ∈ filter (fun a => a.1 <> [] /\ combo_key a.1 = c) articles)
    by (rewrite Hf; left).
  apply list_elem_of_filter in Hin as [[Hfne <-] _]. cbn in Hfne. split.
  - intros Hnil. apply Hfne. apply Permutation_nil_r. rewrite <- Hnil.
    symmetry. apply combo_key_perm.
  - apply py_sorted_sorted; [apply str_ltb_asym|apply str_ltb_cotrans].
Qed.

(** X12: every row of the table names a non-empty combination in
    ascending order of its names, cites at least one key, and shows as
    frequency the number of keys it cites, which are the keys of the
    articles with that combination, in input order. *)
Theorem table_data_row (articles : list (list str * str)) :
  Forall (fun x => freq x = length (keys x) /\
                   keys x <> [] /\
                   keys x = members (combo x) articles /\
                   combo x <> [] /\
                   StronglySorted (in_order id str_ltb) (combo x))
         (table_data (group_loop articles).1).
Proof. apply table_data_rows. Qed.

(** X13: the keys cited in the table are, counted with repetition, the
    keys of the articles in which some material was found, and the
    frequencies of the table add up to the number of these articles. *)
Theorem table_data_cites (articles : list (list str * str)) :
  let table := table_data (group_loop articles).1 in
  all_ordered_cite_keys table ≡ₚ (classified articles).*2 /\
  sum_list (freq <$> table) = length (classified articles).
Proof.
  cbn zeta.
  assert (Hperm : all_ordered_cite_keys (table_data (group_loop articles).1)
                  ≡ₚ (classified articles).*2).
  { unfold all_ordered_cite_keys, table_data. rewrite py_sorted_perm.
    rewrite list_fmap_bind. unfold group_loop.
    rewrite <- (app_nil_l (classified articles).*2).
    apply (group_loop_cites articles
             ([], {| mono := 0; binary := 0; ternary := 0; other := 0 |})). }
  split; [exact Hperm|].
  apply Permutation_length in Hperm. rewrite length_fmap in Hperm. rewrite <- Hperm.
  clear Hperm. unfold all_ordered_cite_keys.
  induction (table_data_rows articles) as [|x t (Hx & _) _ IH]; [reflexivity|].
  cbn. rewrite length_app, <- Hx. f_equal. exact IH.
Qed.

(** ** The whole run, further *)

Section Outcome.
Context (Py : Interpreter).







Lemma filter_two {A} (P : A -> Prop) `{forall x, Decision (P x)} (l : list A) :
  forall i j a b,
    i < j -> l !! i = Some a -> l !! j = Some b -> P a -> P b ->
    exists x y rest, filter P l = x :: y :: rest.
Proof.
  induction l as [|z l IH]; intros i j a b Hij Hi Hj Ha Hb.
  - rewrite lookup_nil in Hi. discriminate.
  - destruct j as [|j]; [lia|]. cbn in Hj. destruct i as [|i]; cbn in Hi.
    + injection Hi as ->. rewrite filter_cons_True by exact Ha.
      assert (Hin : b ∈ filter P l).
      { apply list_elem_of_filter. split; [exact Hb|].
        apply list_elem_of_lookup. eauto. }
      destruct (filter P l) as [|y rest]; [inversion Hin|]. eauto.
    + destruct (IH i j a b ltac:(lia) Hi Hj Ha Hb) as (x & y & rest & Heq).
      rewrite filter_cons, Heq. destruct (decide (P z)); eauto.
Qed.

(** X16: a key that the key loop gave to two articles gets no entry in
    the bibliography. *)
Theorem shared_key_no_entry (df : DataFrame) (bib_keys : list str)
    (i j : nat) (key : str) :
  i <> j ->
  bib_keys !! i = Some key -> bib_keys !! j = Some key ->
  i < length (rows df) -> j < length (rows df) ->
  is_ok (bibtex_entry Py df bib_keys key) = false /\
  final_bib_content Py df bib_keys [key] = [].
Proof.
  intros Hij Hi Hj Hli Hlj.
  assert (Hloc : exists r1 r2 rest, loc df bib_keys key = r1 :: r2 :: rest).
  { apply lookup_lt_is_Some in Hli as [ri Hri]. apply lookup_lt_is_Some in Hlj as [rj Hrj].
    assert (Hzi : zip bib_keys (rows df) !! i = Some (key, ri)).
    { apply lookup_zip_with_Some. eauto. }
    assert (Hzj : zip bib_keys (rows df) !! j = Some (key, rj)).
    { apply lookup_zip_with_Some. eauto. }
    unfold loc.
    destruct (Nat.lt_trichotomy i j) as [Hlt|[?|Hlt]]; [|contradiction|].
    - destruct (filter_two (fun kr : str * list value => kr.1 = key) _ i j _ _
                  Hlt Hzi Hzj eq_refl eq_refl) as (x & y & rest & ->).
      cbn. eauto.
    - destruct (filter_two (fun kr : str * list value => kr.1 = key) _ j i _ _
                  Hlt Hzj Hzi eq_refl eq_refl) as (x & y & rest & ->).
      cbn. eauto. }
  destruct Hloc as (r1 & r2 & rest & Hloc).
  assert (Hentry : is_ok (bibtex_entry Py df bib_keys key) = false).
  { unfold bibtex_entry. rewrite Hloc.
    destruct (column_index "Page start" (columns df)); reflexivity. }
  split; [exact Hentry|]. unfold final_bib_content. cbn.
  destruct (bibtex_entry Py df bib_keys key); [discriminate|reflexivity].
Qed.



End Outcome.

(** ** The bibliography, further *)

Section Entries.
Context (Py : Interpreter).

(** X18: an article whose Year cell is empty gets no entry, although the
    table cites its key: [int] of the empty cell raises ValueError. *)
Theorem empty_year_no_entry (df : DataFrame) (bib_keys : list str) (key : str)
    (article : list value) :
  loc df bib_keys key = [article] ->
  row_get df article "Year" (VInt 0) = VNaN ->
  is_ok (bibtex_entry Py df bib_keys key) = false /\
  final_bib_content Py df bib_keys [key] = [].
Proof.
  intros Hloc Hyear.
  assert (Hentry : is_ok (bibtex_entry Py df bib_keys key) = false).
  { unfold bibtex_entry. rewrite Hloc, Hyear.
    destruct (row_item df article "Page start") as [ps|];
      cbn [mbind result_bind is_ok py_int]; [|reflexivity].
    destruct (notna ps); cbn [mbind result_bind is_ok py_int]; [|reflexivity].
    destruct (row_item df article "Page end") as [pe|];
      cbn [mbind result_bind is_ok py_int]; [|reflexivity].
    destruct (notna pe); cbn [mbind result_bind is_ok py_int]; [|reflexivity].
    destruct (py_int Py ps); cbn [mbind result_bind is_ok py_int]; [|reflexivity].
    destruct (py_int Py pe); reflexivity. }
  split; [exact Hentry|]. unfold final_bib_content. cbn [mbind list_bind].
  destruct (bibtex_entry Py df bib_keys key); [discriminate|reflexivity].
Qed.

Lemma no_page_start_raises (df : DataFrame) (bib_keys : list str) (key : str) :
  column_index "Page start" (columns df) = None ->
  bibtex_entry Py df bib_keys key = Raise KeyError.
Proof.
  intros Hcol. unfold bibtex_entry, row_item.
  destruct (loc df bib_keys key) as [|r1 [|r2 rest]]; rewrite ?Hcol; reflexivity.
Qed.

(** X19: on a table without the column Page start the bibliography is
    empty, whatever keys the table cites: every entry stops with the
    KeyError of line 175, which the loop catches. *)
Theorem no_page_start_no_entries (df : DataFrame) (bib_keys keys : list str) :
  column_index "Page start" (columns df) = None ->
  final_bib_content Py df bib_keys keys = [].
Proof.
  intros Hcol. unfold final_bib_content. induction keys as [|k keys IH]; [reflexivity|].
  cbn [mbind list_bind]. rewrite (no_page_start_raises df bib_keys k Hcol). exact IH.
Qed.

End Entries.

Lemma unique_ordered_NoDup_id (l : list str) :
  forall seen, NoDup (seen ++ l) ->
               foldl (fun seen key => set_add key seen) seen l = seen ++ l.
Proof.
  induction l as [|k l IH]; intros seen Hnd; cbn [foldl].
  - rewrite app_nil_r. reflexivity.
  - unfold set_add. rewrite bool_decide_eq_false_2.
    + rewrite IH; rewrite <- app_assoc; [reflexivity|exact Hnd].
    + apply NoDup_app in Hnd as (_ & Hdisj & _). intros Hk. apply (Hdisj k Hk). left.
Qed.

(** X20: when the articles have pairwise distinct keys, no key is cited
    twice in the table, and the keys of the bibliography are the cited
    keys in the order of the table. *)
Theorem distinct_keys_cited_once (articles : list (list str * str)) :
  NoDup articles.*2 ->
  let all := all_ordered_cite_keys (table_data (group_loop articles).1) in
  NoDup all /\ unique_ordered all = all.
Proof.
  intros Hnd. cbn zeta.
  assert (Hall : NoDup (all_ordered_cite_keys (table_data (group_loop articles).1))).
  { assert (Hperm : all_ordered_cite_keys (table_data (group_loop articles).1)
                    ≡ₚ (classified articles).*2).
    { unfold all_ordered_cite_keys, table_data. rewrite py_sorted_perm.
      rewrite list_fmap_bind. unfold group_loop.
      rewrite <- (app_nil_l (classified articles).*2).
      apply (group_loop_cites articles
               ([], {| mono := 0; binary := 0; ternary := 0; other := 0 |})). }
    rewrite Hperm. apply (sublist_NoDup _ articles.*2 Hnd).
    apply fmap_sublist, sublist_filter. }
  split; [exact Hall|]. unfold unique_ordered.
  apply (unique_ordered_NoDup_id _ []). exact Hall.
Qed.

(** ** Instances of the further properties *)

Lemma sanitize_text_escaped_witness :
  sanitize_text cpython_ascii (VStr (lit "A & B_C")) !! 3 = Some 38%N /\
  special 38 = true /\
  exists j, 3 = S j /\ sanitize_text cpython_ascii (VStr (lit "A & B_C")) !! j = Some 92%N.
Proof.
  split; [reflexivity|]. split; [reflexivity|].
  apply (sanitize_text_escaped cpython_ascii (VStr (lit "A & B_C")) 3 38%N); reflexivity.
Defined.

Lemma same_base_distinct_keys_witness :
  base_keys cpython_ascii (fun _ => 0%Z) three_alike = Ok three_alike_bases /\
  bib_keys cpython_ascii (fun _ => 0%Z) three_alike
  = Ok [lit "smith2020graphene"; lit "smith2020graphene2"; lit "smith2020graphene3"] /\
  0 <> 1 /\
  three_alike_bases !! 0 = Some (lit "smith2020graphene") /\
  three_alike_bases !! 1 = Some (lit "smith2020graphene") /\
  lit "smith2020graphene" <> lit "smith2020graphene2".
Proof.
  split; [reflexivity|]. split; [reflexivity|]. split; [lia|].
  split; [reflexivity|]. split; [reflexivity|].
  apply (same_base_distinct_keys cpython_ascii (fun _ => 0%Z) three_alike
           three_alike_bases
           [lit "smith2020graphene"; lit "smith2020graphene2"; lit "smith2020graphene3"]
           0 1 (lit "smith2020graphene"));
    [reflexivity|reflexivity|lia|reflexivity..].
Defined.

Lemma generate_bib_key_text_integer_witness :
  within_digit_limit cpython_ascii (str_of_Z (Z.abs 2020)) = true /\
  generate_bib_key cpython_ascii (fun _ => 0%Z)
    (VStr (lit "Smith, John")) (VStr (str_of_Z 2020)) (VStr (lit "Graphene oxide"))
  = generate_bib_key cpython_ascii (fun _ => 0%Z)
      (VStr (lit "Smith, John")) (VInt 2020) (VStr (lit "Graphene oxide")).
Proof.
  split; [reflexivity|].
  apply (generate_bib_key_text_integer cpython_ascii (fun _ => 0%Z)
           (VStr (lit "Smith, John")) (VStr (lit "Graphene oxide")) 2020).
  reflexivity.
Defined.

Lemma nanoparticles_found_case_witness :
  same_up_to_case (lit "GOLD and ag") (lit "gold AND Ag") /\
  nanoparticles_found cpython_ascii (lit "GOLD and ag")
  = nanoparticles_found cpython_ascii (lit "gold AND Ag").
Proof.
  assert (H : same_up_to_case (lit "GOLD and ag") (lit "gold AND Ag"))
    by (repeat constructor).
  split; [exact H|].
  apply (nanoparticles_found_case cpython_ascii _ _ H).
Defined.


Lemma shared_key_no_entry_witness :
  1 <> 2 /\
  [lit "li2020tio"; lit "li2020tio2"; lit "li2020tio2"] !! 1 = Some (lit "li2020tio2") /\
  [lit "li2020tio"; lit "li2020tio2"; lit "li2020tio2"] !! 2 = Some (lit "li2020tio2") /\
  1 < length (rows suffix_clash) /\ 2 < length (rows suffix_clash) /\
  is_ok (bibtex_entry cpython_ascii suffix_clash
           [lit "li2020tio"; lit "li2020tio2"; lit "li2020tio2"] (lit "li2020tio2"))
  = false /\
  final_bib_content cpython_ascii suffix_clash
    [lit "li2020tio"; lit "li2020tio2"; lit "li2020tio2"] [lit "li2020tio2"] = [].
Proof.
  split; [lia|]. split; [reflexivity|]. split; [reflexivity|].
  split; [cbn; lia|]. split; [cbn; lia|].
  apply (shared_key_no_entry cpython_ascii suffix_clash
           [lit "li2020tio"; lit "li2020tio2"; lit "li2020tio2"] 1 2 (lit "li2020tio2"));
    [lia|reflexivity|reflexivity|cbn; lia|cbn; lia].
Defined.


Lemma empty_year_no_entry_witness :
  loc no_year [lit "doendgold"] (lit "doendgold")
  = [article_row (VStr (lit "Gold nanofluids")) VNaN (VStr (lit "Doe, J.")) VNaN] /\
  row_get no_year
    (article_row (VStr (lit "Gold nanofluids")) VNaN (VStr (lit "Doe, J.")) VNaN)
    "Year" (VInt 0) = VNaN /\
  is_ok (bibtex_entry cpython_ascii no_year [lit "doendgold"] (lit "doendgold")) = false /\
  final_bib_content cpython_ascii no_year [lit "doendgold"] [lit "doendgold"] = [].
Proof.
  split; [reflexivity|]. split; [reflexivity|].
  apply (empty_year_no_entry cpython_ascii no_year [lit "doendgold"] (lit "doendgold")
           (article_row (VStr (lit "Gold nanofluids")) VNaN (VStr (lit "Doe, J.")) VNaN));
    reflexivity.
Defined.

Lemma no_page_start_no_entries_witness :
  column_index "Page start" (columns no_abstract) = None /\
  final_bib_content cpython_ascii no_abstract [lit "doe2021gold"] [lit "doe2021gold"] = [].
Proof.
  split; [reflexivity|].
  apply (no_page_start_no_entries cpython_ascii no_abstract
           [lit "doe2021gold"] [lit "doe2021gold"]).
  reflexivity.
Defined.

Lemma distinct_keys_cited_once_witness :
  NoDup gold_silver.*2 /\
  NoDup (all_ordered_cite_keys (table_data (group_loop gold_silver).1)) /\
  unique_ordered (all_ordered_cite_keys (table_data (group_loop gold_silver).1))
  = all_ordered_cite_keys (table_data (group_loop gold_silver).1).
Proof.
  assert (H : NoDup gold_silver.*2).
  { cbn. apply NoDup_cons. split; [|apply NoDup_singleton].
    intros Hin%list_elem_of_singleton. discriminate. }
  split; [exact H|].
  apply (distinct_keys_cited_once gold_silver H).
Defined.
